(** * End-to-end-encrypted chat relay: the store, the session guard and the routes

    A shallow embedding of [backend/database.py], [backend/routes/auth.py],
    [backend/routes/chat.py] and the routing of [backend/app.py].

    - A Python [str] is a [string]; its characters stand for the code points
      U+0001..U+00FF, so [len] is [String.length]. (SQLite's text functions
      stop at U+0000; no string here holds it.)
    - A JSON body is an object whose values are strings.
    - The three SQLite tables are lists of rows in rowid order.
    - A [TIMESTAMP] column holds fixed-width ISO text, which SQLite orders as
      text and hence chronologically; it is a [Z] counting microseconds.
    - [CURRENT_TIMESTAMP], [datetime.now()], [secrets.token_urlsafe] and the
      failures of the store are inputs of each request, gathered in [env].
      [CURRENT_TIMESTAMP] is SQLite's clock, UTC to the second;
      [datetime.now()] is the host's local time to the microsecond.
    - A Python exception is the [Raise] branch of [outcome]. *)

From Stdlib Require Import List String Ascii ZArith Bool Lia Sorted Permutation.
From Stdlib Require OrderedTypeEx.
Import ListNotations.
Local Open Scope string_scope.
Local Open Scope Z_scope.

(** ** Python string operations used by the routes *)

Module PyStr.

(** [str.isspace] on one code point below U+0100. *)
Definition isspace (c : ascii) : bool :=
  let n := N_of_ascii c in
  ((9 <=? n) && (n <=? 13) || (28 <=? n) && (n <=? 32)
   || (n =? 133) || (n =? 160))%N.

Definition isdigit_ascii (c : ascii) : bool :=
  let n := N_of_ascii c in ((48 <=? n) && (n <=? 57))%N.

Definition isupper_ascii (c : ascii) : bool :=
  let n := N_of_ascii c in ((65 <=? n) && (n <=? 90))%N.

Definition islower_ascii (c : ascii) : bool :=
  let n := N_of_ascii c in ((97 <=? n) && (n <=? 122))%N.

(** [str.isalnum] on one code point below U+0100: the ASCII letters and
    digits, and the Latin-1 letters and numeric signs. *)
Definition isalnum_char (c : ascii) : bool :=
  let n := N_of_ascii c in
  isdigit_ascii c || isupper_ascii c || islower_ascii c
  || ((n =? 170) || (n =? 178) || (n =? 179) || (n =? 181) || (n =? 185)
      || (n =? 186) || (n =? 188) || (n =? 189) || (n =? 190)
      || (192 <=? n) && (n <=? 214) || (216 <=? n) && (n <=? 246)
      || (248 <=? n))%N.

Fixpoint all_chars (p : ascii -> bool) (s : string) : bool :=
  match s with
  | EmptyString => true
  | String c s' => p c && all_chars p s'
  end.

(** [s.isalnum()]: false on the empty string. *)
Definition isalnum (s : string) : bool :=
  match s with
  | EmptyString => false
  | _ => all_chars isalnum_char s
  end.

(** [s.replace(c, '')] for a one-character [c]. *)
Fixpoint remove_char (c : ascii) (s : string) : string :=
  match s with
  | EmptyString => EmptyString
  | String d s' =>
      if Ascii.eqb d c then remove_char c s' else String d (remove_char c s')
  end.

Fixpoint lstrip (s : string) : string :=
  match s with
  | EmptyString => EmptyString
  | String c s' => if isspace c then lstrip s' else s
  end.

Fixpoint rstrip (s : string) : string :=
  match s with
  | EmptyString => EmptyString
  | String c s' =>
      match rstrip s' with
      | EmptyString => if isspace c then EmptyString else String c EmptyString
      | r => String c r
      end
  end.

(** [s.strip()] *)
Definition strip (s : string) : string := rstrip (lstrip s).

(** [s.startswith(p)] *)
Definition startswith (s p : string) : bool := String.prefix p s.

(** [s.split(sep)] for a one-character [sep]. *)
Fixpoint split (sep : ascii) (s : string) : list string :=
  match s with
  | EmptyString => [EmptyString]
  | String c s' =>
      if Ascii.eqb c sep then EmptyString :: split sep s'
      else match split sep s' with
           | [] => [String c EmptyString]
           | w :: ws => String c w :: ws
           end
  end.

(** [x in s] for strings: [x] occurs in [s] as a contiguous substring. *)
Fixpoint contains (s x : string) : bool :=
  String.prefix x s
  || match s with
     | EmptyString => false
     | String _ s' => contains s' x
     end.

End PyStr.

(** ** SQLite text operations used by the queries *)

Module Sql.

(** ASCII-only case folding, as SQLite's built-in [LIKE] does it. *)
Definition tolower (c : ascii) : ascii :=
  if PyStr.isupper_ascii c then ascii_of_N (N_of_ascii c + 32) else c.

Definition like_char_eq (c d : ascii) : bool :=
  Ascii.eqb (tolower c) (tolower d).

(** [s LIKE p] with no [ESCAPE]: ["%"] matches any run of characters, ["_"]
    any one character, every other character itself up to ASCII case. *)
Fixpoint like (p s : string) : bool :=
  match p with
  | EmptyString => match s with EmptyString => true | _ => false end
  | String c p' =>
      if Ascii.eqb c "%" then
        (fix any_run (t : string) : bool :=
           like p' t
           || match t with
              | EmptyString => false
              | String _ t' => any_run t'
              end) s
      else if Ascii.eqb c "_" then
        match s with
        | EmptyString => false
        | String _ s' => like p' s'
        end
      else
        match s with
        | EmptyString => false
        | String d s' => like_char_eq c d && like p' s'
        end
  end.

(** [ORDER BY]: an insertion sort on a boolean order. SQL leaves the order of
    rows with equal keys open; here they keep the order in which they reach
    the sort. *)
Section OrderBy.
Context {A : Type} (le : A -> A -> bool).

Fixpoint insert (x : A) (l : list A) : list A :=
  match l with
  | [] => [x]
  | y :: l' => if le x y then x :: l else y :: insert x l'
  end.

Definition order_by (l : list A) : list A := fold_right insert [] l.
End OrderBy.

(** [LIMIT n] *)
Definition limit {A : Type} (n : nat) (l : list A) : list A := firstn n l.

End Sql.

(** ** The persistent store: [database.py] *)

(** One row of each table, with the columns of [init_db]. *)
Record user_row := {
  user_id : Z;
  username : string;
  password_hash : string;
  public_key : string;
  user_created_at : Z
}.

Record message_row := {
  message_id : Z;
  sender_username : string;
  receiver_username : string;
  encrypted_content : string;
  iv : string;
  encrypted_session_key : option string;
  timestamp : Z
}.

Record session_row := {
  session_id : Z;
  session_username : string;
  session_token : string;
  expires_at : Z;
  session_created_at : Z
}.

(** The database file: the tables in rowid order and, for [AUTOINCREMENT],
    the largest rowid each table has ever held. *)
Record Database := {
  users : list user_row;
  messages : list message_row;
  sessions : list session_row;
  seq_users : Z;
  seq_messages : Z;
  seq_sessions : Z
}.

Definition empty_db : Database :=
  {| users := []; messages := []; sessions := [];
     seq_users := 0; seq_messages := 0; seq_sessions := 0 |}.

(** The methods of [Database], one store operation each. *)
Inductive store_op :=
| OpCreateUser | OpGetUser | OpGetUserPublicKey
| OpStoreMessage | OpGetMessages | OpGetConversations
| OpCreateSession | OpGetSession | OpDeleteSession
| OpSearchUsers | OpGetAllUsers.

(** How a store operation can fail: [sqlite3.connect] raises, or a statement
    (or the commit) raises once the connection is open. *)
Inductive fault := Healthy | ConnectError | ExecuteError.

(** What one request reads from outside the program. *)
Record env := {
  fault_of : store_op -> fault;
  CURRENT_TIMESTAMP : Z;      (* the store's clock: SQLite's, UTC *)
  datetime_now : Z;           (* [datetime.now()] of the Python process: the host's local time *)
  token_urlsafe : string;     (* [secrets.token_urlsafe(32)] *)
  salt : string               (* the salt drawn by [generate_password_hash] *)
}.

(** The exceptions that leave a method of [Database]: [sqlite3]'s own, and the
    one an exception handler raises when it closes a connection that was never
    opened. *)
Inductive exn := OperationalError | UnboundLocalError.

(** What a call produces: a value, or an exception. *)
Inductive outcome (A : Type) : Type :=
| Return (a : A)
| Raise (x : exn).
Arguments Return {A} a.
Arguments Raise {A} x.

(** The methods of class [Database]. *)
Module Db.

(** A method without [try]: either failure propagates. *)
Definition run_query {A : Type} (e : env) (op : store_op) (result : A) : outcome A :=
  match fault_of e op with
  | Healthy => Return result
  | ConnectError | ExecuteError => Raise OperationalError
  end.

(** A method whose body is wrapped in
    [try: conn = self.get_connection() ... except Exception: conn.close(); return d]:
    a failing statement yields [d]; when the connection itself could not be
    opened, [conn] is unbound in the handler and the handler raises. *)
Definition try_query {A : Type} (e : env) (op : store_op) (result d : A) : outcome A :=
  match fault_of e op with
  | Healthy => Return result
  | ExecuteError => Return d
  | ConnectError => Raise UnboundLocalError
  end.

Definition has_user (db : Database) (name : string) : bool :=
  existsb (fun u => (username u =? name)%string) (users db).

(** [create_user]: the [UNIQUE] constraint on [username] raises
    [IntegrityError], the only exception the method catches. *)
Definition create_user (e : env) (db : Database) (name hash key : string)
  : outcome bool * Database :=
  match fault_of e OpCreateUser with
  | ConnectError | ExecuteError => (Raise OperationalError, db)
  | Healthy =>
      if has_user db name then (Return false, db)
      else
        let row := {| user_id := seq_users db + 1; username := name;
                      password_hash := hash; public_key := key;
                      user_created_at := CURRENT_TIMESTAMP e |} in
        (Return true,
         {| users := users db ++ [row]; messages := messages db;
            sessions := sessions db; seq_users := seq_users db + 1;
            seq_messages := seq_messages db; seq_sessions := seq_sessions db |})
  end.

Definition get_user (e : env) (db : Database) (name : string)
  : outcome (option user_row) :=
  run_query e OpGetUser
    (find (fun u => (username u =? name)%string) (users db)).

Definition get_user_public_key (e : env) (db : Database) (name : string)
  : outcome (option string) :=
  run_query e OpGetUserPublicKey
    (option_map public_key (find (fun u => (username u =? name)%string) (users db))).

Definition store_message (e : env) (db : Database)
    (sender receiver content iv_ : string) (key : option string)
  : outcome bool * Database :=
  match fault_of e OpStoreMessage with
  | ConnectError => (Raise UnboundLocalError, db)
  | ExecuteError => (Return false, db)
  | Healthy =>
      let row := {| message_id := seq_messages db + 1;
                    sender_username := sender; receiver_username := receiver;
                    encrypted_content := content; iv := iv_;
                    encrypted_session_key := key;
                    timestamp := CURRENT_TIMESTAMP e |} in
      (Return true,
       {| users := users db; messages := messages db ++ [row];
          sessions := sessions db; seq_users := seq_users db;
          seq_messages := seq_messages db + 1; seq_sessions := seq_sessions db |})
  end.

(** The two [WHERE] clauses of [get_messages]. *)
Definition between (u v : string) (m : message_row) : bool :=
  ((sender_username m =? u)%string && (receiver_username m =? v)%string)
  || ((sender_username m =? v)%string && (receiver_username m =? u)%string).

Definition involves (u : string) (m : message_row) : bool :=
  (sender_username m =? u)%string || (receiver_username m =? u)%string.

Definition by_timestamp_asc (a b : message_row) : bool := timestamp a <=? timestamp b.

(** [if other_username:] is false for [None] and for the empty string. *)
Definition get_messages (e : env) (db : Database) (name : string)
    (other_username : option string) : outcome (list message_row) :=
  run_query e OpGetMessages
    match other_username with
    | Some (String c v) =>
        Sql.order_by by_timestamp_asc (filter (between name (String c v)) (messages db))
    | Some EmptyString | None =>
        Sql.order_by by_timestamp_asc (filter (involves name) (messages db))
    end.

(** The [CASE] expression of [get_conversations]. *)
Definition contact_username (name : string) (m : message_row) : string :=
  if (sender_username m =? name)%string then receiver_username m
  else sender_username m.

(** [GROUP BY contact_username] with [MAX(timestamp)]: one row per contact,
    groups in order of first occurrence. *)
Fixpoint group_max (c : string) (t : Z) (groups : list (string * Z))
  : list (string * Z) :=
  match groups with
  | [] => [(c, t)]
  | (c', t') :: rest =>
      if (c' =? c)%string then (c', Z.max t' t) :: rest
      else (c', t') :: group_max c t rest
  end.

Definition group_by_max (rows : list (string * Z)) : list (string * Z) :=
  fold_left (fun groups r => group_max (fst r) (snd r) groups) rows [].

Definition row_eqb (a b : string * Z) : bool :=
  (fst a =? fst b)%string && (snd a =? snd b).

(** [SELECT DISTINCT] *)
Fixpoint distinct (rows : list (string * Z)) : list (string * Z) :=
  match rows with
  | [] => []
  | r :: rest => r :: filter (fun r' => negb (row_eqb r r')) (distinct rest)
  end.

Definition by_last_message_time_desc (a b : string * Z) : bool := snd b <=? snd a.

Definition conversation_rows (db : Database) (name : string) : list (string * Z) :=
  map (fun m => (contact_username name m, timestamp m))
      (filter (involves name) (messages db)).

(** Contacts with the same [last_message_time] come out in the order of their
    first occurrence; SQL leaves their order open, and SQLite's sorter may
    give another. *)
Definition get_conversations (e : env) (db : Database) (name : string)
  : outcome (list (string * Z)) :=
  run_query e OpGetConversations
    (Sql.order_by by_last_message_time_desc
       (distinct (group_by_max (conversation_rows db name)))).

Definition has_session (db : Database) (token : string) : bool :=
  existsb (fun s => (session_token s =? token)%string) (sessions db).

(** [create_session]: [session_token] is [UNIQUE]; every exception is caught. *)
Definition create_session (e : env) (db : Database) (name token : string)
    (expires : Z) : outcome bool * Database :=
  match fault_of e OpCreateSession with
  | ConnectError => (Raise UnboundLocalError, db)
  | ExecuteError => (Return false, db)
  | Healthy =>
      if has_session db token then (Return false, db)
      else
        let row := {| session_id := seq_sessions db + 1; session_username := name;
                      session_token := token; expires_at := expires;
                      session_created_at := CURRENT_TIMESTAMP e |} in
        (Return true,
         {| users := users db; messages := messages db;
            sessions := sessions db ++ [row]; seq_users := seq_users db;
            seq_messages := seq_messages db; seq_sessions := seq_sessions db + 1 |})
  end.

(** [WHERE session_token = ? AND expires_at > CURRENT_TIMESTAMP] *)
Definition live_session (e : env) (token : string) (s : session_row) : bool :=
  (session_token s =? token)%string && (CURRENT_TIMESTAMP e <? expires_at s).

Definition get_session (e : env) (db : Database) (token : string)
  : outcome (option session_row) :=
  run_query e OpGetSession (find (live_session e token) (sessions db)).

(** [delete_session]: the [DELETE] statement succeeds whether or not a row
    matches; the method returns [False] only from its exception handler. *)
Definition delete_session (e : env) (db : Database) (token : string)
  : outcome bool * Database :=
  match fault_of e OpDeleteSession with
  | ConnectError => (Raise UnboundLocalError, db)
  | ExecuteError => (Return false, db)
  | Healthy =>
      (Return true,
       {| users := users db; messages := messages db;
          sessions := filter (fun s => negb (session_token s =? token)%string)
                             (sessions db);
          seq_users := seq_users db; seq_messages := seq_messages db;
          seq_sessions := seq_sessions db |})
  end.

(** The pattern [f'%{query}%'] bound to [LIKE ?]. *)
Definition like_pattern (query : string) : string :=
  ("%" ++ query ++ "%")%string.

Definition search_users_rows (db : Database) (query current_user : string)
  : list string :=
  Sql.limit 10
    (Sql.order_by String.leb
       (map username
          (filter (fun u => Sql.like (like_pattern query) (username u)
                            && negb (username u =? current_user)%string)
                  (users db)))).

Definition search_users (e : env) (db : Database) (query current_user : string)
  : outcome (list string) :=
  try_query e OpSearchUsers (search_users_rows db query current_user) [].

Definition get_all_users (e : env) (db : Database) (current_user : string)
  : outcome (list string) :=
  try_query e OpGetAllUsers
    (Sql.order_by String.leb
       (map username
          (filter (fun u => negb (username u =? current_user)%string) (users db))))
    [].

End Db.

(** ** Requests and responses *)

(** A JSON object (or the query string) with string values, as its items. *)
Definition dict := list (string * string).

Fixpoint dict_get (k : string) (d : dict) : option string :=
  match d with
  | [] => None
  | (k', v) :: d' => if (k' =? k)%string then Some v else dict_get k d'
  end.

(** [d[k]] where the route has already checked [k in d]. *)
Definition getitem (k : string) (d : dict) : string :=
  match dict_get k d with Some v => v | None => EmptyString end.

Record request := {
  Authorization : option string;  (* [request.headers.get('Authorization')] *)
  json : option dict;             (* [request.get_json()]; [None] when it raises or returns [None] *)
  args : dict                     (* [request.args] *)
}.

(** The payloads handed to [jsonify]. *)
Inductive body :=
| ErrorBody (error : string)
| RegisterOk (name : string)
| LoginOk (token name : string) (expires : Z)
| LogoutOk
| VerifyOk (name : string) (expires : Z)
| VerifyInvalid
| UsersOk (names : list string)
| PublicKeyOk (name key : string)
| SendOk (sender receiver : string)
| MessagesOk (rows : list message_row) (count : nat)
| ConversationsOk (rows : list (string * Z)) (count : nat)
| SearchOk (names : list string) (query : string)
| Unhandled.

Definition response := (Z * body)%type.

Definition status (r : response * Database) : Z := fst (fst r).

(** The [except Exception] clause of every route. *)
Definition internal_server_error (db : Database) : response * Database :=
  ((500, ErrorBody "Internal server error"), db).

(** An exception that escapes a view function: Flask answers 500, with the
    body of the 500 handler of [app.py] or, under [debug=True], with the
    debugger's page. *)
Definition flask_unhandled (db : Database) : response * Database :=
  ((500, Unhandled), db).

(** The loop over [required_fields]: the first field that is absent or falsy. *)
Fixpoint missing_field (fields : list string) (data : dict) : option string :=
  match fields with
  | [] => None
  | f :: fs =>
      match dict_get f data with
      | None | Some EmptyString => Some f
      | Some _ => missing_field fs data
      end
  end.

(** The header check shared by [logout], [verify_session] and [require_auth]:
    [auth_header.split(' ')[1]] once the header starts with ["Bearer "]. *)
Definition bearer_token (req : request) : option string :=
  match Authorization req with
  | None | Some EmptyString => None
  | Some h =>
      if PyStr.startswith h "Bearer " then Some (nth 1 (PyStr.split " " h) EmptyString)
      else None
  end.

(** [timedelta(hours=h)], in microseconds. *)
Definition timedelta_hours (h : Z) : Z := h * 3600 * 1000000.

(** ** [routes/auth.py] *)

Module Auth.

Section Werkzeug.
(** [werkzeug.security]: the hash of a password under a salt, and its check. *)
Variable generate_password_hash : string -> string -> string.
Variable check_password_hash : string -> string -> bool.

Definition register (e : env) (db : Database) (req : request)
  : response * Database :=
  match json req with
  | None => internal_server_error db
  | Some data =>
      match missing_field ["username"; "password"; "public_key"] data with
      | Some f => ((400, ErrorBody ("Missing required field: " ++ f)), db)
      | None =>
          let name := PyStr.strip (getitem "username" data) in
          let password := getitem "password" data in
          let key := getitem "public_key" data in
          if ((String.length name <? 3) || (50 <? String.length name))%nat then
            ((400, ErrorBody "Username must be between 3 and 50 characters"), db)
          else if negb (PyStr.isalnum
                          (PyStr.remove_char "-" (PyStr.remove_char "_" name))) then
            ((400, ErrorBody "Username can only contain letters, numbers, hyphens, and underscores"), db)
          else if (String.length password <? 6)%nat then
            ((400, ErrorBody "Password must be at least 6 characters long"), db)
          else
            match Db.create_user e db name
                    (generate_password_hash (salt e) password) key with
            | (Return true, db') => ((201, RegisterOk name), db')
            | (Return false, db') => ((409, ErrorBody "Username already exists"), db')
            | (Raise _, _) => internal_server_error db
            end
      end
  end.

Definition login (e : env) (db : Database) (req : request)
  : response * Database :=
  match json req with
  | None => internal_server_error db
  | Some data =>
      match dict_get "username" data, dict_get "password" data with
      | Some raw_name, Some password =>
          let name := PyStr.strip raw_name in
          match Db.get_user e db name with
          | Raise _ => internal_server_error db
          | Return None => ((401, ErrorBody "Invalid username or password"), db)
          | Return (Some user) =>
              if negb (check_password_hash (password_hash user) password) then
                ((401, ErrorBody "Invalid username or password"), db)
              else
                let token := token_urlsafe e in
                let expires := datetime_now e + timedelta_hours 24 in
                match Db.create_session e db name token expires with
                | (Return true, db') => ((200, LoginOk token name expires), db')
                | (Return false, db') => ((500, ErrorBody "Failed to create session"), db')
                | (Raise _, _) => internal_server_error db
                end
          end
      | _, _ => ((400, ErrorBody "Username and password are required"), db)
      end
  end.
End Werkzeug.

Definition logout (e : env) (db : Database) (req : request)
  : response * Database :=
  match bearer_token req with
  | None => ((401, ErrorBody "Missing or invalid authorization header"), db)
  | Some token =>
      match Db.delete_session e db token with
      | (Return true, db') => ((200, LogoutOk), db')
      | (Return false, db') => ((401, ErrorBody "Invalid session"), db')
      | (Raise _, _) => internal_server_error db
      end
  end.

Definition verify_session (e : env) (db : Database) (req : request)
  : response * Database :=
  match bearer_token req with
  | None => ((401, ErrorBody "Missing or invalid authorization header"), db)
  | Some token =>
      match Db.get_session e db token with
      | Return (Some s) => ((200, VerifyOk (session_username s) (expires_at s)), db)
      | Return None => ((401, VerifyInvalid), db)
      | Raise _ => internal_server_error db
      end
  end.

(** The decorator: [f] receives [request.current_user] as its first argument.
    The lookup is outside any [try], so a store failure escapes to Flask. *)
Definition require_auth
    (f : string -> env -> Database -> request -> response * Database)
    (e : env) (db : Database) (req : request) : response * Database :=
  match bearer_token req with
  | None => ((401, ErrorBody "Missing or invalid authorization header"), db)
  | Some token =>
      match Db.get_session e db token with
      | Return (Some s) => f (session_username s) e db req
      | Return None => ((401, ErrorBody "Invalid or expired session"), db)
      | Raise _ => flask_unhandled db
      end
  end.

End Auth.

(** ** [routes/chat.py] *)

Module Chat.

Definition get_users_view (current_user : string) (e : env) (db : Database)
    (req : request) : response * Database :=
  match Db.get_all_users e db current_user with
  | Return names => ((200, UsersOk names), db)
  | Raise _ => internal_server_error db
  end.

Definition get_users := Auth.require_auth get_users_view.

Definition get_public_key_view (name : string) (current_user : string)
    (e : env) (db : Database) (req : request) : response * Database :=
  match Db.get_user_public_key e db name with
  | Return (Some EmptyString) | Return None => ((404, ErrorBody "User not found"), db)
  | Return (Some key) => ((200, PublicKeyOk name key), db)
  | Raise _ => internal_server_error db
  end.

Definition get_public_key (name : string) :=
  Auth.require_auth (get_public_key_view name).

Definition send_message_view (current_user : string) (e : env) (db : Database)
    (req : request) : response * Database :=
  match json req with
  | None => internal_server_error db
  | Some data =>
      match missing_field ["receiver_username"; "encrypted_content"; "iv"] data with
      | Some f => ((400, ErrorBody ("Missing required field: " ++ f)), db)
      | None =>
          let receiver := getitem "receiver_username" data in
          let content := getitem "encrypted_content" data in
          let iv_ := getitem "iv" data in
          let key := dict_get "encrypted_session_key" data in
          match Db.get_user e db receiver with
          | Raise _ => internal_server_error db
          | Return None => ((404, ErrorBody "Receiver not found"), db)
          | Return (Some _) =>
              match Db.store_message e db current_user receiver content iv_ key with
              | (Return true, db') => ((201, SendOk current_user receiver), db')
              | (Return false, db') => ((500, ErrorBody "Failed to send message"), db')
              | (Raise _, _) => internal_server_error db
              end
          end
      end
  end.

Definition send_message := Auth.require_auth send_message_view.

Definition get_messages_view (current_user : string) (e : env) (db : Database)
    (req : request) : response * Database :=
  match Db.get_messages e db current_user (dict_get "with" (args req)) with
  | Return rows => ((200, MessagesOk rows (List.length rows)), db)
  | Raise _ => internal_server_error db
  end.

Definition get_messages := Auth.require_auth get_messages_view.

Definition get_conversations_view (current_user : string) (e : env)
    (db : Database) (req : request) : response * Database :=
  match Db.get_conversations e db current_user with
  | Return rows => ((200, ConversationsOk rows (List.length rows)), db)
  | Raise _ => internal_server_error db
  end.

Definition get_conversations := Auth.require_auth get_conversations_view.

Definition search_users_view (current_user : string) (e : env) (db : Database)
    (req : request) : response * Database :=
  let query :=
    PyStr.strip (match dict_get "q" (args req) with Some q => q | None => EmptyString end) in
  if (String.length query <? 2)%nat then
    ((400, ErrorBody "Search query must be at least 2 characters"), db)
  else
    match Db.search_users e db query current_user with
    | Return names => ((200, SearchOk (firstn 10 names) query), db)
    | Raise _ => internal_server_error db
    end.

Definition search_users := Auth.require_auth search_users_view.

End Chat.

(** ** [app.py] *)

(** The endpoints registered on the two blueprints. *)
Inductive endpoint :=
| PostRegister | PostLogin | PostLogout | GetVerify
| GetUsers | GetPublicKey (name : string) | PostSend
| GetMessages | GetConversations | GetSearchUsers.

Definition dispatch (gen : string -> string -> string) (chk : string -> string -> bool)
    (ep : endpoint) : env -> Database -> request -> response * Database :=
  match ep with
  | PostRegister => Auth.register gen
  | PostLogin => Auth.login chk
  | PostLogout => Auth.logout
  | GetVerify => Auth.verify_session
  | GetUsers => Chat.get_users
  | GetPublicKey name => Chat.get_public_key name
  | PostSend => Chat.send_message
  | GetMessages => Chat.get_messages
  | GetConversations => Chat.get_conversations
  | GetSearchUsers => Chat.search_users
  end.

(** The stores that requests can produce from the empty one. *)
Inductive reachable (gen : string -> string -> string) (chk : string -> string -> bool)
  : Database -> Prop :=
| reachable_empty : reachable gen chk empty_db
| reachable_step (db : Database) (ep : endpoint) (e : env) (req : request) :
    reachable gen chk db ->
    reachable gen chk (snd (dispatch gen chk ep e db req)).

(** * Vocabulary of the statements *)

(** The endpoints of the chat blueprint, all decorated with [require_auth]. *)
Definition protected (ep : endpoint) : bool :=
  match ep with
  | GetUsers | GetPublicKey _ | PostSend | GetMessages | GetConversations
  | GetSearchUsers => true
  | PostRegister | PostLogin | PostLogout | GetVerify => false
  end.

(** The characters of a string. *)
Definition chars (s : string) : list ascii := list_ascii_of_string s.

(** [groups] summarises [rows]: one entry per contact, carrying the largest
    timestamp of that contact's rows. *)
Definition summarises (groups rows : list (string * Z)) : Prop :=
  NoDup (map fst groups)
  /\ (forall c t, In (c, t) groups ->
                  In (c, t) rows /\ forall t', In (c, t') rows -> t' <= t)
  /\ (forall c t, In (c, t) rows -> In c (map fst groups)).

(** The request passes the guard as [name]. *)
Definition authenticated (e : env) (db : Database) (req : request) (name : string) : Prop :=
  exists token s,
    bearer_token req = Some token
    /\ Db.get_session e db token = Return (Some s)
    /\ session_username s = name.

(** The username [register] validates and stores. *)
Definition username_of (data : dict) : string := PyStr.strip (getitem "username" data).

(** The request body gets past the field check and the three validation
    checks of [register]. *)
Definition passes_checks (data : dict) : Prop :=
  missing_field ["username"; "password"; "public_key"] data = None
  /\ (3 <= String.length (username_of data) <= 50)%nat
  /\ PyStr.isalnum
       (PyStr.remove_char "-" (PyStr.remove_char "_" (username_of data))) = true
  /\ (6 <= String.length (getitem "password" data))%nat.

(** Usernames and session tokens are unique; sessions belong to registered
    users; messages run between registered users. *)
Definition consistent (db : Database) : Prop :=
  NoDup (map username (users db))
  /\ NoDup (map session_token (sessions db))
  /\ (forall s, In s (sessions db) -> Db.has_user db (session_username s) = true)
  /\ (forall m, In m (messages db) ->
                Db.has_user db (sender_username m) = true
                /\ Db.has_user db (receiver_username m) = true).

(** [str.lower] on one code point below U+0100. *)
Definition lower_char (c : ascii) : ascii :=
  let n := N_of_ascii c in
  if PyStr.isupper_ascii c
     || ((192 <=? n) && (n <=? 222) && negb (n =? 215))%N
  then ascii_of_N (n + 32) else c.

Fixpoint lower (s : string) : string :=
  match s with
  | EmptyString => EmptyString
  | String c s' => String (lower_char c) (lower s')
  end.

(** Following the claim's words: [name] contains [query] as a substring once
    both are lower-cased, as Python's [query.lower() in name.lower()]. *)
Definition contains_nocase (name query : string) : bool :=
  PyStr.contains (lower name) (lower query).

(** Following the claim's words: the registered usernames other than
    [current_user] that contain [query] up to case, in order, at most ten. *)
Definition search_by_substring (db : Database) (query current_user : string)
  : list string :=
  firstn 10
    (Sql.order_by String.leb
       (filter (fun name => contains_nocase name query
                            && negb (name =? current_user)%string)
               (map username (users db)))).

(** [s] with its ASCII capitals lowered, the only folding [LIKE] does. *)
Fixpoint fold_case (s : string) : string :=
  match s with
  | EmptyString => EmptyString
  | String c s' => String (Sql.tolower c) (fold_case s')
  end.



(** A user row as [register] lets it through: a name of 3 to 50 letters,
    digits, hyphens and underscores with at least one letter or digit, and a
    public key that is not empty. *)
Definition well_formed_user (u : user_row) : Prop :=
  (3 <= String.length (username u) <= 50)%nat
  /\ (forall c, In c (chars (username u)) ->
                PyStr.isalnum_char c = true \/ c = "-"%char \/ c = "_"%char)
  /\ (exists c, In c (chars (username u)) /\ PyStr.isalnum_char c = true)
  /\ public_key u <> EmptyString.

(** Row ids as [INTEGER PRIMARY KEY AUTOINCREMENT] hands them out: they
    increase along the table and none exceeds the table's sequence. *)
Definition increasing_ids {A : Type} (id : A -> Z) (rows : list A) (last : Z) : Prop :=
  StronglySorted Z.lt (map id rows)
  /\ Forall (fun r => 1 <= id r <= last) rows
  /\ 0 <= last.

Definition ids_in_order (db : Database) : Prop :=
  increasing_ids user_id (users db) (seq_users db)
  /\ increasing_ids message_id (messages db) (seq_messages db)
  /\ increasing_ids session_id (sessions db) (seq_sessions db).

(** The stores that further requests can produce from [db]. *)
Inductive reaches (gen : string -> string -> string) (chk : string -> string -> bool)
    (db : Database) : Database -> Prop :=
| reaches_refl : reaches gen chk db db
| reaches_step (db' : Database) (ep : endpoint) (e : env) (req : request) :
    reaches gen chk db db' ->
    reaches gen chk db (snd (dispatch gen chk ep e db' req)).

(** A table at a later time: its sequence has not gone back, and each of its
    rows is a row it had before or is numbered beyond the earlier sequence. *)
Definition grows {A : Type} (id : A -> Z) (rows : list A) (last : Z)
    (rows' : list A) (last' : Z) : Prop :=
  last <= last' /\ forall r, In r rows' -> In r rows \/ last < id r.

(** No row of [later] carries the id of another row of [earlier]. *)
Definition ids_kept {A : Type} (id : A -> Z) (earlier later : list A) : Prop :=
  forall r r', In r earlier -> In r' later -> id r' = id r -> r' = r.

(** By how much Python's clock, the host's local time, is ahead of the
    store's, which is UTC. *)
Definition clock_offset (e : env) : Z := datetime_now e - CURRENT_TIMESTAMP e.

(** * Sample data *)

(** ** Environments *)

Definition all_healthy : store_op -> fault := fun _ => Healthy.

(** Both clocks read [now], the next token drawn is [token], no store
    operation fails. *)
Definition env_at (now : Z) (token : string) : env :=
  {| fault_of := all_healthy; CURRENT_TIMESTAMP := now; datetime_now := now;
     token_urlsafe := token; salt := "s" |}.

Definition sample_env : env := env_at 1000 "tok-1".

Definition later_env (now : Z) : env := env_at now "tok-2".

Definition failing (op : store_op) (how : fault) : store_op -> fault :=
  fun op' =>
    match op, op' with
    | OpCreateUser, OpCreateUser | OpGetUser, OpGetUser
    | OpGetUserPublicKey, OpGetUserPublicKey | OpStoreMessage, OpStoreMessage
    | OpGetMessages, OpGetMessages | OpGetConversations, OpGetConversations
    | OpCreateSession, OpCreateSession | OpGetSession, OpGetSession
    | OpDeleteSession, OpDeleteSession | OpSearchUsers, OpSearchUsers
    | OpGetAllUsers, OpGetAllUsers => how
    | _, _ => Healthy
    end.

(** [sample_env] with one store operation failing. *)
Definition env_failing (op : store_op) (how : fault) : env :=
  {| fault_of := failing op how; CURRENT_TIMESTAMP := 1000; datetime_now := 1000;
     token_urlsafe := "tok-1"; salt := "s" |}.

(** A stand-in for [werkzeug.security]: the salt, a separator, the password. *)
Definition sample_gen (salt_ password : string) : string := (salt_ ++ "$" ++ password)%string.

Definition sample_chk (hash password : string) : bool :=
  (hash =? sample_gen "s" password)%string.

(** ** Stores *)

Definition sample_user (n : Z) (name : string) : user_row :=
  {| user_id := n; username := name; password_hash := "s$h"; public_key := "pk";
     user_created_at := 0 |}.

Definition sample_message (n : Z) (sender receiver : string) (t : Z) : message_row :=
  {| message_id := n; sender_username := sender; receiver_username := receiver;
     encrypted_content := "ct"; iv := "iv"; encrypted_session_key := None;
     timestamp := t |}.

Definition carol_session : session_row :=
  {| session_id := 1; session_username := "carol"; session_token := "tok-carol";
     expires_at := 5000; session_created_at := 0 |}.

(** alice, bob and carol; four messages; carol is logged in. *)
Definition sample_db : Database :=
  {| users := [sample_user 1 "alice"; sample_user 2 "bob"; sample_user 3 "carol"];
     messages := [sample_message 1 "alice" "bob" 10;
                  sample_message 2 "carol" "alice" 20;
                  sample_message 3 "bob" "alice" 30;
                  sample_message 4 "bob" "carol" 40];
     sessions := [carol_session];
     seq_users := 3; seq_messages := 4; seq_sessions := 1 |}.

(** alice and bob, and the one message alice sent bob. *)
Definition alice_bob_db : Database :=
  {| users := [sample_user 1 "alice"; sample_user 2 "bob"];
     messages := [sample_message 1 "alice" "bob" 10];
     sessions := []; seq_users := 2; seq_messages := 1; seq_sessions := 0 |}.

(** ["jos\u00E9"] and ["JOS\u00C9"], the last letter being U+00E9 and U+00C9. *)
Definition jose_lower : string := "jos" ++ String (ascii_of_N 233) EmptyString.

Definition jose_upper : string := "JOS" ++ String (ascii_of_N 201) EmptyString.

(** carol, logged in, and a user whose name ends in U+00E9. *)
Definition latin1_db : Database :=
  {| users := [sample_user 1 jose_lower; sample_user 2 "carol"];
     messages := []; sessions := [carol_session];
     seq_users := 2; seq_messages := 0; seq_sessions := 1 |}.

(** ** Requests *)

Definition bearer (token : string) : request :=
  {| Authorization := Some ("Bearer " ++ token)%string; json := None; args := [] |}.

Definition registration_data (name password key : string) : dict :=
  [("username", name); ("password", password); ("public_key", key)].

Definition registration (name password key : string) : request :=
  {| Authorization := None;
     json := Some (registration_data name password key);
     args := [] |}.

Definition login_as (name password : string) : request :=
  {| Authorization := None;
     json := Some [("username", name); ("password", password)];
     args := [] |}.

Definition sample_login : request := login_as "alice" "h".

Definition send_to (receiver : string) (token : string) : request :=
  {| Authorization := Some ("Bearer " ++ token)%string;
     json := Some [("receiver_username", receiver);
                   ("encrypted_content", "ct1"); ("iv", "iv1")];
     args := [] |}.

Definition messages_with (partner token : string) : request :=
  {| Authorization := Some ("Bearer " ++ token)%string; json := None;
     args := [("with", partner)] |}.

Definition search (query token : string) : request :=
  {| Authorization := Some ("Bearer " ++ token)%string; json := None;
     args := [("q", query)] |}.

(** ** Stores produced by requests *)

(** The store after alice has logged in at [sample_env]. *)
Definition db_after_login : Database :=
  snd (Auth.login sample_chk sample_env sample_db sample_login).

(** alice and bob register, alice logs in and sends bob one message, bob logs
    in: the store bob then reads. *)
Definition scenario_db : Database :=
  let db1 := snd (Auth.register sample_gen (env_at 100 "") empty_db
                    (registration "alice" "secret1" "pkA")) in
  let db2 := snd (Auth.register sample_gen (env_at 110 "") db1
                    (registration "bob" "secret2" "pkB")) in
  let db3 := snd (Auth.login sample_chk (env_at 200 "tokA") db2
                    (login_as "alice" "secret1")) in
  let db4 := snd (Chat.send_message (env_at 300 "") db3 (send_to "bob" "tokA")) in
  snd (Auth.login sample_chk (env_at 400 "tokB") db4 (login_as "bob" "secret2")).

(** alice registers, logs in and sends herself a message. *)
Definition self_db : Database :=
  let db1 := snd (Auth.register sample_gen (env_at 100 "") empty_db
                    (registration "alice" "secret1" "pkA")) in
  let db2 := snd (Auth.login sample_chk (env_at 200 "tokA") db1
                    (login_as "alice" "secret1")) in
  snd (Chat.send_message (env_at 300 "") db2 (send_to "alice" "tokA")).

(** After [scenario_db], bob logs out and logs in again. *)
Definition relogin_db : Database :=
  let db1 := snd (Auth.logout (env_at 500 "") scenario_db (bearer "tokB")) in
  snd (Auth.login sample_chk (env_at 600 "tokC") db1 (login_as "bob" "secret2")).

(** ** Hosts off UTC *)

(** A host whose local time is [offset] ahead of UTC, at the UTC time [utc]:
    the store's clock reads [utc], Python's reads [utc + offset]. *)
Definition env_on_host (offset utc : Z) (token : string) : env :=
  {| fault_of := all_healthy; CURRENT_TIMESTAMP := utc; datetime_now := utc + offset;
     token_urlsafe := token; salt := "s" |}.

(** Two hours east of UTC: alice logs in at 01:00 UTC, 03:00 local time. *)
Definition east_login : env := env_on_host (timedelta_hours 2) (timedelta_hours 1) "tok-1".

Definition east_at (utc_hours : Z) : env :=
  env_on_host (timedelta_hours 2) (timedelta_hours utc_hours) "tok-2".

Definition db_after_login_east : Database :=
  snd (Auth.login sample_chk east_login sample_db sample_login).

(** Five hours west of UTC: alice logs in at 06:00 UTC, 01:00 local time. *)
Definition west_login : env :=
  env_on_host (- timedelta_hours 5) (timedelta_hours 6) "tok-1".

Definition west_at (utc_hours : Z) : env :=
  env_on_host (- timedelta_hours 5) (timedelta_hours utc_hours) "tok-2".

Definition db_after_login_west : Database :=
  snd (Auth.login sample_chk west_login sample_db sample_login).

(** * Properties *)

(** ** [ORDER BY] sorts, permutes and commutes with [WHERE] *)

Section OrderByFacts.
Context {A : Type} (le : A -> A -> bool).
Hypothesis le_total : forall x y, le x y = true \/ le y x = true.
Hypothesis le_trans : forall x y z, le x y = true -> le y z = true -> le x z = true.

Let leP (x y : A) : Prop := le x y = true.

Lemma insert_perm (x : A) (l : list A) : Permutation (Sql.insert le x l) (x :: l).
Proof.
  induction l as [|y l IH]; simpl; [reflexivity|].
  destruct (le x y); [reflexivity|].
  rewrite IH. apply perm_swap.
Qed.

Lemma order_by_perm (l : list A) : Permutation (Sql.order_by le l) l.
Proof.
  induction l as [|x l IH]; simpl; [constructor|].
  rewrite insert_perm. now constructor.
Qed.

Lemma insert_sorted (x : A) (l : list A) :
  StronglySorted leP l -> StronglySorted leP (Sql.insert le x l).
Proof.
  induction 1 as [|y l Hs IH Hy]; simpl.
  - repeat constructor.
  - destruct (le x y) eqn:Hxy.
    + constructor; [now constructor|].
      constructor; [exact Hxy|].
      eapply Forall_impl; [|exact Hy]. intros z Hz. now apply le_trans with y.
    + constructor; [exact IH|].
      assert (Hyx : leP y x) by (destruct (le_total x y); [congruence|assumption]).
      eapply Permutation_Forall; [symmetry; apply insert_perm|].
      now constructor.
Qed.

Lemma order_by_sorted (l : list A) : StronglySorted leP (Sql.order_by le l).
Proof.
  induction l as [|x l IH]; simpl; [constructor|]. now apply insert_sorted.
Qed.

Lemma insert_head (x : A) (l : list A) :
  Forall (leP x) l -> Sql.insert le x l = x :: l.
Proof.
  destruct 1 as [|y l Hy _]; simpl; [reflexivity|].
  unfold leP in Hy. now rewrite Hy.
Qed.

(** Because the sort is stable, restricting its output is sorting the
    restricted input. *)
Lemma filter_insert (p : A -> bool) (x : A) (l : list A) :
  StronglySorted leP l ->
  filter p (Sql.insert le x l) =
  if p x then Sql.insert le x (filter p l) else filter p l.
Proof.
  induction 1 as [|y l Hs IH Hy]; simpl.
  - now destruct (p x).
  - destruct (le x y) eqn:Hxy; simpl.
    + destruct (p x) eqn:Hpx; [|reflexivity].
      symmetry. apply (insert_head x (filter p (y :: l))).
      apply Forall_forall. intros z Hz.
      apply filter_In in Hz. destruct Hz as [[->|Hz] _]; [exact Hxy|].
      apply le_trans with y; [exact Hxy|].
      rewrite Forall_forall in Hy. now apply Hy.
    + rewrite IH. destruct (p y) eqn:Hpy, (p x) eqn:Hpx; simpl;
        try reflexivity.
      now rewrite Hxy.
Qed.

Lemma filter_order_by (p : A -> bool) (l : list A) :
  filter p (Sql.order_by le l) = Sql.order_by le (filter p l).
Proof.
  induction l as [|x l IH]; simpl; [reflexivity|].
  rewrite filter_insert by apply order_by_sorted.
  rewrite IH. now destruct (p x).
Qed.
End OrderByFacts.

Lemma by_timestamp_asc_total (a b : message_row) :
  Db.by_timestamp_asc a b = true \/ Db.by_timestamp_asc b a = true.
Proof. unfold Db.by_timestamp_asc. lia. Qed.

Lemma by_timestamp_asc_trans (a b c : message_row) :
  Db.by_timestamp_asc a b = true -> Db.by_timestamp_asc b c = true ->
  Db.by_timestamp_asc a c = true.
Proof. unfold Db.by_timestamp_asc. lia. Qed.

Lemma by_last_message_time_desc_total (a b : string * Z) :
  Db.by_last_message_time_desc a b = true \/ Db.by_last_message_time_desc b a = true.
Proof. unfold Db.by_last_message_time_desc. lia. Qed.

Lemma by_last_message_time_desc_trans (a b c : string * Z) :
  Db.by_last_message_time_desc a b = true ->
  Db.by_last_message_time_desc b c = true ->
  Db.by_last_message_time_desc a c = true.
Proof. unfold Db.by_last_message_time_desc. lia. Qed.

Lemma StronglySorted_impl {A : Type} (R S : A -> A -> Prop) (l : list A) :
  (forall x y, R x y -> S x y) -> StronglySorted R l -> StronglySorted S l.
Proof.
  intros HRS. induction 1 as [|x l Hs IH Hx]; constructor; [exact IH|].
  eapply Forall_impl; [|exact Hx]. intros y. apply HRS.
Qed.

(** ** Message history *)

Lemma between_spec (u v : string) (m : message_row) :
  Db.between u v m = true <->
  (sender_username m = u /\ receiver_username m = v)
  \/ (sender_username m = v /\ receiver_username m = u).
Proof.
  unfold Db.between.
  rewrite orb_true_iff, !andb_true_iff, !String.eqb_eq. reflexivity.
Qed.

Lemma involves_spec (u : string) (m : message_row) :
  Db.involves u m = true <-> sender_username m = u \/ receiver_username m = u.
Proof.
  unfold Db.involves. rewrite orb_true_iff, !String.eqb_eq. reflexivity.
Qed.

Lemma between_involves (u v : string) (m : message_row) :
  u <> v ->
  Db.between u v m = (Db.involves v m && Db.involves u m).
Proof.
  intros Huv. unfold Db.between, Db.involves.
  destruct (String.eqb_spec (sender_username m) u) as [Hsu|Hsu],
           (String.eqb_spec (sender_username m) v) as [Hsv|Hsv],
           (String.eqb_spec (receiver_username m) u) as [Hru|Hru],
           (String.eqb_spec (receiver_username m) v) as [Hrv|Hrv];
    simpl; try reflexivity; congruence.
Qed.

Lemma filter_filter {A : Type} (p q : A -> bool) (l : list A) :
  filter p (filter q l) = filter (fun x => p x && q x) l.
Proof.
  induction l as [|x l IH]; simpl; [reflexivity|].
  destruct (q x); simpl; [destruct (p x)|rewrite andb_false_r]; now rewrite IH.
Qed.

(** The history of [u] with a partner, when the store answers. *)
Lemma get_messages_with (e : env) (db : Database) (u v : string) :
  fault_of e OpGetMessages = Healthy -> v <> EmptyString ->
  Db.get_messages e db u (Some v) =
  Return (Sql.order_by Db.by_timestamp_asc (filter (Db.between u v) (messages db))).
Proof.
  intros He Hv. unfold Db.get_messages, Db.run_query. rewrite He.
  destruct v; [contradiction|reflexivity].
Qed.

Lemma get_messages_all (e : env) (db : Database) (u : string) :
  fault_of e OpGetMessages = Healthy ->
  Db.get_messages e db u None =
  Return (Sql.order_by Db.by_timestamp_asc (filter (Db.involves u) (messages db))).
Proof.
  intros He. unfold Db.get_messages, Db.run_query. now rewrite He.
Qed.

(** C5, as stated, fails when the partner is the user: [history(u, u)] keeps
    only the rows [u] sent to [u], while every row of [history(u)] involves
    [u]. Here alice has one message to bob and none to herself. *)
Lemma history_self_differs :
  Db.get_messages sample_env alice_bob_db "alice" (Some "alice") = Return []
  /\ Db.get_messages sample_env alice_bob_db "alice" None
     = Return [sample_message 1 "alice" "bob" 10]
  /\ filter (Db.involves "alice") [sample_message 1 "alice" "bob" 10]
     = [sample_message 1 "alice" "bob" 10]
  /\ ~ (forall (e : env) (db : Database) (u v : string) (rows all : list message_row),
          Db.get_messages e db u (Some v) = Return rows ->
          Db.get_messages e db u None = Return all ->
          rows = filter (Db.involves v) all).
Proof.
  repeat split; try reflexivity.
  intros H.
  specialize (H sample_env alice_bob_db "alice" "alice" _ _ eq_refl eq_refl).
  discriminate H.
Qed.

(** C5 (amended): for a user [u] and a non-empty partner name [v] other than
    [u], [history(u, v)] holds exactly the rows exchanged between the two, in
    ascending timestamp order, and is [history(u)] restricted to the rows in
    which [v] is sender or receiver. *)
Theorem history_with_partner (e : env) (db : Database) (u v : string) :
  fault_of e OpGetMessages = Healthy ->
  v <> EmptyString ->
  u <> v ->
  exists rows all : list message_row,
    Db.get_messages e db u (Some v) = Return rows
    /\ Db.get_messages e db u None = Return all
    /\ Permutation rows (filter (Db.between u v) (messages db))
    /\ (forall m, In m rows <->
                  In m (messages db)
                  /\ ((sender_username m = u /\ receiver_username m = v)
                      \/ (sender_username m = v /\ receiver_username m = u)))
    /\ (forall m, In m all <->
                  In m (messages db)
                  /\ (sender_username m = u \/ receiver_username m = u))
    /\ StronglySorted (fun a b => timestamp a <= timestamp b) rows
    /\ StronglySorted (fun a b => timestamp a <= timestamp b) all
    /\ rows = filter (Db.involves v) all.
Proof.
  intros He Hv Huv.
  exists (Sql.order_by Db.by_timestamp_asc (filter (Db.between u v) (messages db))),
         (Sql.order_by Db.by_timestamp_asc (filter (Db.involves u) (messages db))).
  assert (Hsorted : forall l,
             StronglySorted (fun a b => timestamp a <= timestamp b)
               (Sql.order_by Db.by_timestamp_asc l)).
  { intros l. eapply StronglySorted_impl;
      [|apply order_by_sorted;
        [exact by_timestamp_asc_total|exact by_timestamp_asc_trans]].
    intros a b Hab. unfold Db.by_timestamp_asc in Hab. lia. }
  split; [now apply get_messages_with|].
  split; [now apply get_messages_all|].
  split; [apply order_by_perm|].
  split.
  { intros m. rewrite <- between_spec, <- filter_In.
    split; apply Permutation_in;
      [apply order_by_perm|symmetry; apply order_by_perm]. }
  split.
  { intros m. rewrite <- involves_spec, <- filter_In.
    split; apply Permutation_in;
      [apply order_by_perm|symmetry; apply order_by_perm]. }
  split; [apply Hsorted|].
  split; [apply Hsorted|].
  rewrite filter_order_by
    by (exact by_timestamp_asc_total || exact by_timestamp_asc_trans).
  rewrite filter_filter. f_equal.
  apply filter_ext. intros m. now apply between_involves.
Qed.

Lemma history_with_partner_witness :
  exists rows all : list message_row,
    Db.get_messages sample_env sample_db "alice" (Some "bob") = Return rows
    /\ Db.get_messages sample_env sample_db "alice" None = Return all
    /\ Permutation rows (filter (Db.between "alice" "bob") (messages sample_db))
    /\ (forall m, In m rows <->
                  In m (messages sample_db)
                  /\ ((sender_username m = "alice" /\ receiver_username m = "bob")
                      \/ (sender_username m = "bob" /\ receiver_username m = "alice")))
    /\ (forall m, In m all <->
                  In m (messages sample_db)
                  /\ (sender_username m = "alice" \/ receiver_username m = "alice"))
    /\ StronglySorted (fun a b => timestamp a <= timestamp b) rows
    /\ StronglySorted (fun a b => timestamp a <= timestamp b) all
    /\ rows = filter (Db.involves "bob") all.
Proof.
  apply (history_with_partner sample_env sample_db "alice" "bob").
  - reflexivity.
  - discriminate.
  - discriminate.
Defined.

(** ** Conversation summaries *)

Lemma group_max_keys (c : string) (t : Z) (groups : list (string * Z)) :
  (In c (map fst groups) /\ map fst (Db.group_max c t groups) = map fst groups)
  \/ (~ In c (map fst groups)
      /\ (map fst (Db.group_max c t groups) = map fst groups ++ [c])%list).
Proof.
  induction groups as [|[c' t'] groups IH]; simpl.
  - right. split; [tauto|reflexivity].
  - destruct (String.eqb_spec c' c) as [->|Hc]; simpl.
    + left. split; [now left|reflexivity].
    + destruct IH as [[Hin Heq]|[Hnin Heq]]; rewrite Heq.
      * left. split; [now right|reflexivity].
      * right. split; [|reflexivity]. intros [H|H]; [congruence|contradiction].
Qed.

Lemma group_max_NoDup (c : string) (t : Z) (groups : list (string * Z)) :
  NoDup (map fst groups) -> NoDup (map fst (Db.group_max c t groups)).
Proof.
  intros Hnd.
  destruct (group_max_keys c t groups) as [[_ ->]|[Hnin ->]]; [exact Hnd|].
  apply NoDup_app; [exact Hnd|repeat constructor; simpl; tauto|].
  intros x Hx [<-|[]]. contradiction.
Qed.

Lemma group_max_In (c : string) (t : Z) (groups : list (string * Z)) (c0 : string) (t0 : Z) :
  NoDup (map fst groups) ->
  In (c0, t0) (Db.group_max c t groups) ->
  (c0 <> c /\ In (c0, t0) groups)
  \/ (c0 = c /\ ((exists t1, In (c, t1) groups /\ t0 = Z.max t1 t)
                 \/ (~ In c (map fst groups) /\ t0 = t))).
Proof.
  induction groups as [|[c' t'] groups IH]; simpl; intros Hnd.
  - intros [H|[]]. inversion H; subst. right. split; [reflexivity|]. right. tauto.
  - inversion Hnd as [|? ? Hnin Hnd']; subst.
    destruct (String.eqb_spec c' c) as [->|Hc]; simpl.
    + intros [H|H].
      * inversion H; subst. right. split; [reflexivity|]. left.
        exists t'. split; [now left|reflexivity].
      * left. split; [|now right].
        intros ->. apply Hnin. now apply (in_map fst) in H.
    + intros [H|H].
      * inversion H; subst. left. split; [congruence|now left].
      * destruct (IH Hnd' H) as [[Hne Hin]|[-> [[t1 [Hin ->]]|[Hnin' ->]]]].
        -- left. split; [exact Hne|now right].
        -- right. split; [reflexivity|]. left. exists t1. split; [now right|reflexivity].
        -- right. split; [reflexivity|]. right. split; [|reflexivity].
           intros [Hx|Hx]; [congruence|contradiction].
Qed.

Lemma summarises_step (groups rows : list (string * Z)) (c : string) (t : Z) :
  summarises groups rows ->
  summarises (Db.group_max c t groups) (rows ++ [(c, t)])%list.
Proof.
  intros (Hnd & Hmax & Hall). split; [now apply group_max_NoDup|]. split.
  - intros c0 t0 Hin.
    destruct (group_max_In c t groups c0 t0 Hnd Hin)
      as [[Hne Hin0]|[-> [[t1 [Hin1 ->]]|[Hnin ->]]]].
    + destruct (Hmax _ _ Hin0) as [Hr Hle]. split.
      * apply in_or_app. now left.
      * intros t' Ht'. apply in_app_or in Ht'. destruct Ht' as [Ht'|[Ht'|[]]].
        -- now apply Hle.
        -- congruence.
    + destruct (Hmax _ _ Hin1) as [Hr Hle]. split.
      * apply in_or_app.
        destruct (Z.max_spec t1 t) as [[_ ->]|[_ ->]]; [right; now left|now left].
      * intros t' Ht'. apply in_app_or in Ht'. destruct Ht' as [Ht'|[Ht'|[]]].
        -- specialize (Hle _ Ht'). lia.
        -- inversion Ht'; subst. lia.
    + split.
      * apply in_or_app. right. now left.
      * intros t' Ht'. apply in_app_or in Ht'. destruct Ht' as [Ht'|[Ht'|[]]].
        -- exfalso. apply Hnin. eapply Hall. exact Ht'.
        -- inversion Ht'; subst. lia.
  - intros c0 t0 Hin. apply in_app_or in Hin.
    destruct (group_max_keys c t groups) as [[Hc ->]|[Hc ->]].
    + destruct Hin as [Hin|[Hin|[]]]; [eapply Hall; exact Hin|].
      inversion Hin; subst. exact Hc.
    + apply in_or_app. destruct Hin as [Hin|[Hin|[]]].
      * left. eapply Hall. exact Hin.
      * right. inversion Hin; subst. now left.
Qed.

Lemma group_by_max_summarises (rows : list (string * Z)) :
  summarises (Db.group_by_max rows) rows.
Proof.
  unfold Db.group_by_max.
  assert (H : forall todo done groups,
             summarises groups done ->
             summarises
               (fold_left (fun g r => Db.group_max (fst r) (snd r) g) todo groups)
               (done ++ todo)%list).
  { induction todo as [|[c t] todo IH]; intros done groups Hs; simpl.
    - now rewrite app_nil_r.
    - replace (done ++ (c, t) :: todo)%list with ((done ++ [(c, t)]) ++ todo)%list
        by now rewrite <- app_assoc.
      apply IH. now apply summarises_step. }
  apply (H rows [] []).
  split; [constructor|]. split; intros c t [].
Qed.

(** [SELECT DISTINCT] leaves a grouped result as it is. *)
Lemma distinct_groups (groups : list (string * Z)) :
  NoDup (map fst groups) -> Db.distinct groups = groups.
Proof.
  induction groups as [|[c t] groups IH]; simpl; [reflexivity|].
  intros Hnd. inversion Hnd as [|? ? Hnin Hnd']; subst.
  rewrite IH by exact Hnd'. f_equal.
  apply forallb_filter_id. apply forallb_forall. intros [c' t'] Hin.
  unfold Db.row_eqb. simpl.
  destruct (String.eqb_spec c c') as [->|_]; [|reflexivity].
  exfalso. apply Hnin. now apply (in_map fst) in Hin.
Qed.

Lemma contact_between (u c : string) (m : message_row) :
  Db.involves u m = true /\ Db.contact_username u m = c <->
  (sender_username m = u /\ receiver_username m = c)
  \/ (sender_username m = c /\ receiver_username m = u).
Proof.
  rewrite involves_spec. unfold Db.contact_username.
  destruct (String.eqb_spec (sender_username m) u) as [Hs|Hs]; split.
  - intros [_ Hc]. now left.
  - intros [[_ Hr]|[Hsc Hr]]; (split; [now left|]); congruence.
  - intros [[Hu|Hu] Hc]; [contradiction|]. now right.
  - intros [[Hsu _]|[Hsc Hr]]; [contradiction|]. split; [now right|exact Hsc].
Qed.

Lemma conversation_rows_In (db : Database) (u c : string) (t : Z) :
  In (c, t) (Db.conversation_rows db u) <->
  exists m, In m (messages db)
            /\ ((sender_username m = u /\ receiver_username m = c)
                \/ (sender_username m = c /\ receiver_username m = u))
            /\ timestamp m = t.
Proof.
  unfold Db.conversation_rows. rewrite in_map_iff. split.
  - intros (m & Heq & Hin). apply filter_In in Hin. destruct Hin as [Hin Hinv].
    inversion Heq; subst. exists m. split; [exact Hin|]. split; [|reflexivity].
    apply contact_between. now split.
  - intros (m & Hin & Hex & Ht). apply contact_between in Hex.
    destruct Hex as [Hinv Hc]. exists m. split; [now rewrite Hc, Ht|].
    apply filter_In. now split.
Qed.

(** C1: [conversations(u)] lists every contact of [u] exactly once; the
    contact of a row is its receiver when [u] sent it and its sender
    otherwise, hence the party that is not [u] whenever the two parties
    differ; each contact carries the largest timestamp over the rows exchanged
    with it in either direction; the list is in descending timestamp order. *)
Theorem conversations_summary (e : env) (db : Database) (u : string) :
  fault_of e OpGetConversations = Healthy ->
  exists rows : list (string * Z),
    Db.get_conversations e db u = Return rows
    /\ NoDup (map fst rows)
    /\ (forall m, In m (messages db) ->
          sender_username m = u \/ receiver_username m = u ->
          In (Db.contact_username u m) (map fst rows)
          /\ (sender_username m = u -> Db.contact_username u m = receiver_username m)
          /\ (sender_username m <> u -> Db.contact_username u m = sender_username m)
          /\ (sender_username m <> receiver_username m -> Db.contact_username u m <> u))
    /\ (forall c t, In (c, t) rows ->
          (exists m, In m (messages db)
                     /\ ((sender_username m = u /\ receiver_username m = c)
                         \/ (sender_username m = c /\ receiver_username m = u))
                     /\ timestamp m = t)
          /\ (forall m, In m (messages db) ->
                (sender_username m = u /\ receiver_username m = c)
                \/ (sender_username m = c /\ receiver_username m = u) ->
                timestamp m <= t))
    /\ StronglySorted (fun a b => snd b <= snd a) rows.
Proof.
  intros He.
  destruct (group_by_max_summarises (Db.conversation_rows db u))
    as (Hnd & Hmax & Hall).
  set (groups := Db.group_by_max (Db.conversation_rows db u)) in *.
  assert (Hperm : Permutation (Sql.order_by Db.by_last_message_time_desc groups) groups)
    by apply order_by_perm.
  exists (Sql.order_by Db.by_last_message_time_desc groups).
  split.
  { unfold Db.get_conversations, Db.run_query. rewrite He.
    fold groups. now rewrite distinct_groups. }
  split.
  { eapply Permutation_NoDup; [|exact Hnd].
    symmetry. now apply Permutation_map. }
  split.
  { intros m Hin Hinv. split.
    - eapply Permutation_in; [symmetry; apply Permutation_map; exact Hperm|].
      apply (Hall _ (timestamp m)). apply conversation_rows_In.
      exists m. split; [exact Hin|]. split; [|reflexivity].
      apply contact_between. split; [now apply involves_spec|reflexivity].
    - unfold Db.contact_username.
      destruct (String.eqb_spec (sender_username m) u) as [Hs|Hs].
      + repeat split; congruence.
      + repeat split; try congruence. }
  split.
  { intros c t Hin. apply (Permutation_in _ Hperm) in Hin.
    destruct (Hmax _ _ Hin) as [Hrow Hle]. split.
    - now apply conversation_rows_In.
    - intros m Hm Hex. apply Hle. apply conversation_rows_In.
      exists m. now repeat split. }
  eapply StronglySorted_impl;
    [|apply order_by_sorted;
      [exact by_last_message_time_desc_total|exact by_last_message_time_desc_trans]].
  intros a b Hab. unfold Db.by_last_message_time_desc in Hab. lia.
Qed.

Lemma conversations_summary_witness :
  Db.get_conversations sample_env sample_db "alice" = Return [("bob", 30); ("carol", 20)]
  /\ exists rows : list (string * Z),
    Db.get_conversations sample_env sample_db "alice" = Return rows
    /\ NoDup (map fst rows)
    /\ (forall m, In m (messages sample_db) ->
          sender_username m = "alice" \/ receiver_username m = "alice" ->
          In (Db.contact_username "alice" m) (map fst rows)
          /\ (sender_username m = "alice" ->
              Db.contact_username "alice" m = receiver_username m)
          /\ (sender_username m <> "alice" ->
              Db.contact_username "alice" m = sender_username m)
          /\ (sender_username m <> receiver_username m ->
              Db.contact_username "alice" m <> "alice"))
    /\ (forall c t, In (c, t) rows ->
          (exists m, In m (messages sample_db)
                     /\ ((sender_username m = "alice" /\ receiver_username m = c)
                         \/ (sender_username m = c /\ receiver_username m = "alice"))
                     /\ timestamp m = t)
          /\ (forall m, In m (messages sample_db) ->
                (sender_username m = "alice" /\ receiver_username m = c)
                \/ (sender_username m = c /\ receiver_username m = "alice") ->
                timestamp m <= t))
    /\ StronglySorted (fun a b => snd b <= snd a) rows.
Proof.
  split; [reflexivity|].
  apply (conversations_summary sample_env sample_db "alice"). reflexivity.
Defined.

(** C1, as stated, fails for a message a user sends to themselves: its
    contact is the user, who is then listed among their own conversations.
    The send endpoint accepts such a message. *)
Lemma conversations_self_contact :
  reachable sample_gen sample_chk self_db
  /\ (exists m, In m (messages self_db)
                /\ sender_username m = "alice" /\ receiver_username m = "alice"
                /\ Db.contact_username "alice" m = "alice")
  /\ Db.get_conversations (env_at 400 "") self_db "alice" = Return [("alice", 300)].
Proof.
  split; [|split].
  - unfold self_db. cbv zeta.
    apply (reachable_step sample_gen sample_chk _ PostSend).
    apply (reachable_step sample_gen sample_chk _ PostLogin).
    apply (reachable_step sample_gen sample_chk _ PostRegister).
    apply reachable_empty.
  - eexists. split; [left; reflexivity|]. repeat split.
  - reflexivity.
Qed.

(** ** Sessions *)

Lemma live_session_spec (e : env) (token : string) (s : session_row) :
  Db.live_session e token s = true <->
  session_token s = token /\ CURRENT_TIMESTAMP e < expires_at s.
Proof.
  unfold Db.live_session. rewrite andb_true_iff, String.eqb_eq, Z.ltb_lt. reflexivity.
Qed.

(** The lookup returns a row exactly when a live row exists. *)
Lemma get_session_live (e : env) (db : Database) (token : string) :
  fault_of e OpGetSession = Healthy ->
  (exists s, Db.get_session e db token = Return (Some s)
             /\ In s (sessions db) /\ session_token s = token
             /\ CURRENT_TIMESTAMP e < expires_at s)
  \/ (Db.get_session e db token = Return None
      /\ forall s, In s (sessions db) -> session_token s = token ->
                   expires_at s <= CURRENT_TIMESTAMP e).
Proof.
  intros He. unfold Db.get_session, Db.run_query. rewrite He.
  destruct (find (Db.live_session e token) (sessions db)) as [s|] eqn:Hf.
  - left. exists s. split; [reflexivity|].
    apply find_some in Hf. destruct Hf as [Hin Hlive].
    apply live_session_spec in Hlive. tauto.
  - right. split; [reflexivity|]. intros s Hin Htok.
    pose proof (find_none _ _ Hf s Hin) as Hdead.
    destruct (Z.ltb_spec (CURRENT_TIMESTAMP e) (expires_at s)) as [Hlt|Hge];
      [|exact Hge].
    assert (Db.live_session e token s = true) by (apply live_session_spec; tauto).
    congruence.
Qed.

(** A successful login stores the session it reports. *)
Lemma login_200 (chk : string -> string -> bool)
    (e : env) (db db' : Database) (req : request) (b : body) :
  Auth.login chk e db req = ((200, b), db') ->
  exists name : string,
    b = LoginOk (token_urlsafe e) name (datetime_now e + timedelta_hours 24)
    /\ sessions db' =
       (sessions db ++
        [{| session_id := seq_sessions db + 1; session_username := name;
            session_token := token_urlsafe e;
            expires_at := datetime_now e + timedelta_hours 24;
            session_created_at := CURRENT_TIMESTAMP e |}])%list.
Proof.
  unfold Auth.login, internal_server_error.
  destruct (json req) as [data|]; [|discriminate].
  destruct (dict_get "username" data) as [raw|]; [|discriminate].
  destruct (dict_get "password" data) as [pw|]; [|discriminate].
  destruct (Db.get_user e db (PyStr.strip raw)) as [[user|]|]; try discriminate.
  destruct (chk (password_hash user) pw); simpl; [|discriminate].
  unfold Db.create_session.
  destruct (fault_of e OpCreateSession); try discriminate.
  destruct (Db.has_session db (token_urlsafe e)); [discriminate|].
  intros H. inversion H; subst; clear H. simpl.
  exists (PyStr.strip raw). split; reflexivity.
Qed.

(** The guard on the store's clock: it hands the request to the view, under
    the row's username, exactly when the store holds a row with the presented
    token whose [expires_at] is later than [CURRENT_TIMESTAMP]; a token whose
    rows have all expired and a token with no row at all get the same 401
    response; login stores as [expires_at] what [datetime.now()] reads at the
    login plus 24 hours. *)
Theorem session_validation (chk : string -> string -> bool)
    (e : env) (db : Database) (req : request) (token : string) :
  fault_of e OpGetSession = Healthy ->
  bearer_token req = Some token ->
  ((exists s, In s (sessions db) /\ session_token s = token
              /\ CURRENT_TIMESTAMP e < expires_at s)
   <->
   (exists s, In s (sessions db) /\ session_token s = token
              /\ forall f, Auth.require_auth f e db req = f (session_username s) e db req))
  /\ ((forall s, In s (sessions db) -> session_token s = token ->
                 expires_at s <= CURRENT_TIMESTAMP e) ->
      forall f, Auth.require_auth f e db req
                = ((401, ErrorBody "Invalid or expired session"), db))
  /\ (forall e0 db0 req0 b,
        Auth.login chk e0 db0 req0 = ((200, b), db) ->
        exists name s,
          b = LoginOk (token_urlsafe e0) name (datetime_now e0 + timedelta_hours 24)
          /\ In s (sessions db)
          /\ session_token s = token_urlsafe e0
          /\ session_username s = name
          /\ expires_at s = datetime_now e0 + 24 * 3600 * 1000000).
Proof.
  intros He Hb. split; [|split].
  - split.
    + intros (s0 & Hin0 & Htok0 & Hlt0).
      destruct (get_session_live e db token He)
        as [(s & Hget & Hin & Htok & Hlt)|[_ Hdead]].
      * exists s. repeat split; try assumption.
        intros f. unfold Auth.require_auth. now rewrite Hb, Hget.
      * specialize (Hdead s0 Hin0 Htok0). lia.
    + intros (s0 & Hin0 & Htok0 & Hacc).
      destruct (get_session_live e db token He)
        as [(s & Hget & Hin & Htok & Hlt)|[Hget Hdead]].
      * exists s. tauto.
      * specialize (Hacc (fun _ _ d _ => ((200, LogoutOk), d))).
        unfold Auth.require_auth in Hacc. rewrite Hb, Hget in Hacc. discriminate.
  - intros Hdead f.
    destruct (get_session_live e db token He)
      as [(s & Hget & Hin & Htok & Hlt)|[Hget _]].
    + specialize (Hdead s Hin Htok). lia.
    + unfold Auth.require_auth. now rewrite Hb, Hget.
  - intros e0 db0 req0 b Hlogin.
    destruct (login_200 chk e0 db0 db req0 b Hlogin) as (name & -> & Hs).
    eexists name, _. split; [reflexivity|]. split.
    + rewrite Hs. apply in_or_app. right. left. reflexivity.
    + simpl. repeat split.
Qed.

(** C2 (the code departs from the claim): [login] takes the expiry from
    Python's [datetime.now()], the host's local time, and [get_session]
    compares it with SQLite's [CURRENT_TIMESTAMP], which is UTC. On a host two
    hours east of UTC the row expires 26 hours after it was created and the
    guard still accepts the token 25 hours after the login; on a host five
    hours west the row expires after 19 hours and the guard rejects the token
    20 hours after the login. *)
Theorem session_expiry_on_local_clock :
  (exists s,
      Auth.login sample_chk east_login sample_db sample_login
      = ((200, LoginOk "tok-1" "alice" (expires_at s)), db_after_login_east)
      /\ In s (sessions db_after_login_east)
      /\ session_token s = "tok-1"
      /\ session_created_at s = CURRENT_TIMESTAMP east_login
      /\ expires_at s = session_created_at s + timedelta_hours 26
      /\ CURRENT_TIMESTAMP (east_at 26) = session_created_at s + timedelta_hours 25
      /\ forall f, Auth.require_auth f (east_at 26) db_after_login_east (bearer "tok-1")
                    = f "alice" (east_at 26) db_after_login_east (bearer "tok-1"))
  /\ (exists s,
        Auth.login sample_chk west_login sample_db sample_login
        = ((200, LoginOk "tok-1" "alice" (expires_at s)), db_after_login_west)
        /\ In s (sessions db_after_login_west)
        /\ session_token s = "tok-1"
        /\ session_created_at s = CURRENT_TIMESTAMP west_login
        /\ expires_at s = session_created_at s + timedelta_hours 19
        /\ CURRENT_TIMESTAMP (west_at 26) = session_created_at s + timedelta_hours 20
        /\ forall f, Auth.require_auth f (west_at 26) db_after_login_west (bearer "tok-1")
                      = ((401, ErrorBody "Invalid or expired session"),
                         db_after_login_west)).
Proof.
  split.
  - exists {| session_id := 2; session_username := "alice"; session_token := "tok-1";
              expires_at := timedelta_hours 27;
              session_created_at := timedelta_hours 1 |}.
    split; [reflexivity|]. split; [right; left; reflexivity|].
    repeat split.
  - exists {| session_id := 2; session_username := "alice"; session_token := "tok-1";
              expires_at := timedelta_hours 25;
              session_created_at := timedelta_hours 6 |}.
    split; [reflexivity|]. split; [right; left; reflexivity|].
    repeat split.
Qed.

(** Logging out deletes the rows with the presented token and reports
    success, whatever the number of rows deleted. *)
Lemma logout_always_succeeds (e : env) (db : Database) (req : request) (token : string) :
  fault_of e OpDeleteSession = Healthy ->
  bearer_token req = Some token ->
  exists db', Auth.logout e db req = ((200, LogoutOk), db')
              /\ sessions db' = filter (fun s => negb (session_token s =? token)%string)
                                       (sessions db)
              /\ users db' = users db /\ messages db' = messages db.
Proof.
  intros He Hb. unfold Auth.logout, Db.delete_session. rewrite Hb, He.
  eexists. split; [reflexivity|]. simpl. repeat split.
Qed.

(** C3 (the code departs from the claim): logging out with a token that no
    session row carries answers 200 "Logout successful", not 401. *)
Theorem logout_unknown_token :
  Db.has_session sample_db "no-such-token" = false
  /\ Auth.logout sample_env sample_db (bearer "no-such-token")
     = ((200, LogoutOk), sample_db).
Proof. split; reflexivity. Qed.

(** ** Sending *)

Lemma has_user_find (db : Database) (name : string) :
  Db.has_user db name = false ->
  find (fun u => (username u =? name)%string) (users db) = None.
Proof.
  unfold Db.has_user. induction (users db) as [|u l IH]; simpl; [reflexivity|].
  destruct (username u =? name)%string; simpl; [discriminate|exact IH].
Qed.

Lemma require_auth_unchanged (f : string -> env -> Database -> request -> response * Database)
    (e : env) (db : Database) (req : request) :
  (forall name, snd (f name e db req) = db) ->
  snd (Auth.require_auth f e db req) = db.
Proof.
  intros Hf. unfold Auth.require_auth.
  destruct (bearer_token req); [|reflexivity].
  destruct (Db.get_session e db s) as [[row|]|]; simpl; auto.
Qed.

(** C4: a send request naming a receiver that is not a registered user leaves
    the store as it was; once it is authenticated and carries the required
    fields, the answer is 404 "Receiver not found". *)
Theorem send_to_unknown_receiver (e : env) (db : Database) (req : request) (data : dict) :
  json req = Some data ->
  Db.has_user db (getitem "receiver_username" data) = false ->
  snd (Chat.send_message e db req) = db
  /\ (forall token s,
        bearer_token req = Some token ->
        Db.get_session e db token = Return (Some s) ->
        missing_field ["receiver_username"; "encrypted_content"; "iv"] data = None ->
        fault_of e OpGetUser = Healthy ->
        Chat.send_message e db req = ((404, ErrorBody "Receiver not found"), db)).
Proof.
  intros Hj Hu.
  assert (Hview : forall name,
             let r := Chat.send_message_view name e db req in
             snd r = db
             /\ (missing_field ["receiver_username"; "encrypted_content"; "iv"] data = None ->
                 fault_of e OpGetUser = Healthy ->
                 r = ((404, ErrorBody "Receiver not found"), db))).
  { intros name. unfold Chat.send_message_view. rewrite Hj.
    destruct (missing_field _ data) eqn:Hm; [split; [reflexivity|discriminate]|].
    unfold Db.get_user, Db.run_query. rewrite (has_user_find db _ Hu).
    destruct (fault_of e OpGetUser); split; try reflexivity; discriminate. }
  split.
  - apply require_auth_unchanged. intros name. apply (Hview name).
  - intros token s Hb Hs Hm He. unfold Chat.send_message, Auth.require_auth.
    rewrite Hb, Hs. now apply (Hview (session_username s)).
Qed.

Lemma send_to_unknown_receiver_witness :
  Chat.send_message sample_env sample_db (send_to "alice" "tok-carol")
  = ((201, SendOk "carol" "alice"),
     {| users := users sample_db;
        messages := (messages sample_db ++ [{| message_id := 5; sender_username := "carol";
                        receiver_username := "alice"; encrypted_content := "ct1";
                        iv := "iv1"; encrypted_session_key := None;
                        timestamp := 1000 |}])%list;
        sessions := sessions sample_db; seq_users := 3; seq_messages := 5;
        seq_sessions := 1 |})
  /\ Chat.send_message sample_env sample_db (send_to "dave" "tok-carol")
     = ((404, ErrorBody "Receiver not found"), sample_db)
  /\ snd (Chat.send_message sample_env sample_db (send_to "dave" "tok-carol")) = sample_db.
Proof.
  split; [reflexivity|].
  destruct (send_to_unknown_receiver sample_env sample_db (send_to "dave" "tok-carol")
              [("receiver_username", "dave"); ("encrypted_content", "ct1"); ("iv", "iv1")]
              eq_refl eq_refl) as [Hdb H404].
  split; [|exact Hdb].
  apply (H404 "tok-carol"
           {| session_id := 1; session_username := "carol"; session_token := "tok-carol";
              expires_at := 5000; session_created_at := 0 |});
    reflexivity.
Defined.

(** ** Registration *)

Lemma register_checked (gen : string -> string -> string) (e : env) (db : Database)
    (req : request) (data : dict) :
  json req = Some data ->
  passes_checks data ->
  Auth.register gen e db req =
  match Db.create_user e db (username_of data)
          (gen (salt e) (getitem "password" data)) (getitem "public_key" data) with
  | (Return true, db') => ((201, RegisterOk (username_of data)), db')
  | (Return false, db') => ((409, ErrorBody "Username already exists"), db')
  | (Raise _, _) => internal_server_error db
  end.
Proof.
  intros Hj (Hm & [Hlo Hhi] & Hal & Hpw). unfold Auth.register. rewrite Hj, Hm.
  fold (username_of data). rewrite Hal. simpl negb. cbv iota.
  replace (String.length (username_of data) <? 3)%nat with false
    by (symmetry; apply Nat.ltb_ge; lia).
  replace (50 <? String.length (username_of data))%nat with false
    by (symmetry; apply Nat.ltb_ge; lia).
  replace (String.length (getitem "password" data) <? 6)%nat with false
    by (symmetry; apply Nat.ltb_ge; lia).
  reflexivity.
Qed.






Lemma all_chars_forall (p : ascii -> bool) (s : string) :
  PyStr.all_chars p s = true <-> forall c, In c (chars s) -> p c = true.
Proof.
  induction s as [|d s IH]; simpl.
  - split; [intros _ c []|reflexivity].
  - rewrite andb_true_iff, IH. split.
    + intros [Hd Hs] c [<-|Hc]; auto.
    + intros H. split; [apply H; now left|]. intros c Hc. apply H. now right.
Qed.

Lemma isalnum_spec (s : string) :
  PyStr.isalnum s = true <->
  (exists c, In c (chars s)) /\ forall c, In c (chars s) -> PyStr.isalnum_char c = true.
Proof.
  rewrite <- all_chars_forall. destruct s as [|d s].
  - simpl. split; [discriminate|]. intros [[c []] _].
  - unfold PyStr.isalnum. split.
    + intros H. split; [exists d; now left|exact H].
    + tauto.
Qed.

Lemma in_remove_char (c d : ascii) (s : string) :
  In c (chars (PyStr.remove_char d s)) <-> In c (chars s) /\ c <> d.
Proof.
  induction s as [|x s IH]; simpl; [tauto|].
  destruct (Ascii.eqb_spec x d) as [->|Hx]; simpl; rewrite IH.
  - split; [tauto|]. intros [[Hc|Hc] Hne]; [congruence|tauto].
  - split.
    + intros [<-|[Hc Hne]]; [split; [now left|exact Hx]|tauto].
    + intros [[Hc|Hc] Hne]; tauto.
Qed.

(** The second check of [register] accepts exactly the names drawn from
    letters, digits, hyphens and underscores that hold at least one letter or
    digit. *)
Lemma username_check_spec (name : string) :
  PyStr.isalnum (PyStr.remove_char "-" (PyStr.remove_char "_" name)) = true <->
  (forall c, In c (chars name) ->
             PyStr.isalnum_char c = true \/ c = "-"%char \/ c = "_"%char)
  /\ (exists c, In c (chars name) /\ PyStr.isalnum_char c = true).
Proof.
  rewrite isalnum_spec. split.
  - intros [[c0 Hc0] Hall]. split.
    + intros c Hc.
      destruct (Ascii.eqb_spec c "-") as [->|Hh]; [tauto|].
      destruct (Ascii.eqb_spec c "_") as [->|Hu]; [tauto|].
      left. apply Hall. rewrite !in_remove_char. tauto.
    + exists c0. split; [|now apply Hall].
      rewrite !in_remove_char in Hc0. tauto.
  - intros [Hall [c0 [Hc0 Hal0]]]. split.
    + exists c0. rewrite !in_remove_char. repeat split; [exact Hc0| |];
        intros ->; discriminate Hal0.
    + intros c Hc. rewrite !in_remove_char in Hc. destruct Hc as [[Hc Hu] Hh].
      destruct (Hall c Hc) as [H|[H|H]]; [exact H|contradiction|contradiction].
Qed.

(** What [register] does get right: each of the three checks rejects with 400
    and leaves the store alone. *)
Lemma register_rejects (gen : string -> string -> string) (e : env) (db : Database)
    (req : request) (data : dict) :
  json req = Some data ->
  (String.length (username_of data) < 3)%nat
  \/ (50 < String.length (username_of data))%nat
  \/ (exists c, In c (chars (username_of data))
                /\ PyStr.isalnum_char c = false /\ c <> "-"%char /\ c <> "_"%char)
  \/ (String.length (getitem "password" data) < 6)%nat ->
  status (Auth.register gen e db req) = 400
  /\ snd (Auth.register gen e db req) = db.
Proof.
  intros Hj Hbad. unfold Auth.register. rewrite Hj. fold (username_of data).
  destruct (missing_field _ data); [split; reflexivity|].
  destruct (String.length (username_of data) <? 3)%nat eqn:H3; [split; reflexivity|].
  destruct (50 <? String.length (username_of data))%nat eqn:H50; [split; reflexivity|].
  simpl orb. cbv iota.
  destruct (PyStr.isalnum _) eqn:Hal; [|split; reflexivity].
  simpl negb. cbv iota.
  destruct (String.length (getitem "password" data) <? 6)%nat eqn:H6;
    [split; reflexivity|].
  exfalso. apply Nat.ltb_ge in H3, H50, H6.
  destruct Hbad as [H|[H|[(c & Hc & Hn & Hh & Hu)|H]]]; try lia.
  apply username_check_spec in Hal. destruct Hal as [Hall _].
  destruct (Hall c Hc) as [H|[H|H]]; congruence.
Qed.

Lemma register_rejects_witness :
  (status (Auth.register sample_gen sample_env empty_db
             (registration "al" "secret1" "pkA")) = 400
   /\ snd (Auth.register sample_gen sample_env empty_db
             (registration "al" "secret1" "pkA")) = empty_db)
  /\ (status (Auth.register sample_gen sample_env empty_db
                (registration "al ice" "secret1" "pkA")) = 400
      /\ snd (Auth.register sample_gen sample_env empty_db
                (registration "al ice" "secret1" "pkA")) = empty_db)
  /\ (status (Auth.register sample_gen sample_env empty_db
                (registration "alice" "12345" "pkA")) = 400
      /\ snd (Auth.register sample_gen sample_env empty_db
                (registration "alice" "12345" "pkA")) = empty_db).
Proof.
  split; [|split].
  - apply (register_rejects sample_gen sample_env empty_db
             (registration "al" "secret1" "pkA")
             (registration_data "al" "secret1" "pkA") eq_refl).
    left. simpl. lia.
  - apply (register_rejects sample_gen sample_env empty_db
             (registration "al ice" "secret1" "pkA")
             (registration_data "al ice" "secret1" "pkA") eq_refl).
    right. right. left. exists " "%char. simpl. repeat split; try discriminate. tauto.
  - apply (register_rejects sample_gen sample_env empty_db
             (registration "alice" "12345" "pkA")
             (registration_data "alice" "12345" "pkA") eq_refl).
    right. right. right. simpl. lia.
Defined.

(** A name made of hyphens and underscores alone is rejected by the second
    check, under the message of that check. *)
Lemma register_rejects_punctuation (gen : string -> string -> string) (e : env)
    (db : Database) (req : request) (data : dict) :
  json req = Some data ->
  missing_field ["username"; "password"; "public_key"] data = None ->
  (3 <= String.length (username_of data) <= 50)%nat ->
  (forall c, In c (chars (username_of data)) -> c = "-"%char \/ c = "_"%char) ->
  Auth.register gen e db req
  = ((400, ErrorBody "Username can only contain letters, numbers, hyphens, and underscores"),
     db).
Proof.
  intros Hj Hm [Hlo Hhi] Hp. unfold Auth.register. rewrite Hj, Hm.
  fold (username_of data).
  replace (String.length (username_of data) <? 3)%nat with false
    by (symmetry; apply Nat.ltb_ge; lia).
  replace (50 <? String.length (username_of data))%nat with false
    by (symmetry; apply Nat.ltb_ge; lia).
  simpl orb. cbv iota.
  destruct (PyStr.isalnum _) eqn:Hal; [|reflexivity].
  apply username_check_spec in Hal. destruct Hal as [_ [c [Hc Hal]]].
  destruct (Hp c Hc) as [->| ->]; discriminate Hal.
Qed.

(** C9 (the code departs from the claim): the name ["___"] has three
    characters, all of them underscores, and comes with a seven-character
    password and a fresh store, yet the registration is answered 400; a name
    with one letter among the underscores is answered 201. *)
Theorem register_underscores_rejected :
  Auth.register sample_gen sample_env empty_db (registration "___" "secret1" "pkA")
  = ((400, ErrorBody "Username can only contain letters, numbers, hyphens, and underscores"),
     empty_db)
  /\ status (Auth.register sample_gen sample_env empty_db
               (registration "_a_" "secret1" "pkA")) = 201.
Proof. split; reflexivity. Qed.

(** ** User search *)

Lemma like_percent_skip (p s : string) :
  Sql.like p s = true -> Sql.like (String "%" p) s = true.
Proof. intros H. destruct s; simpl; now rewrite H. Qed.

Lemma like_percent_step (p : string) (c : ascii) (s : string) :
  Sql.like (String "%" p) s = true -> Sql.like (String "%" p) (String c s) = true.
Proof. intros H. simpl in *. rewrite H. apply orb_true_r. Qed.

Lemma like_percent_all (s : string) : Sql.like "%" s = true.
Proof.
  induction s as [|c s IH]; [reflexivity|]. now apply like_percent_step.
Qed.

Lemma like_underscore (p : string) (c : ascii) (s : string) :
  Sql.like (String "_" p) (String c s) = Sql.like p s.
Proof. reflexivity. Qed.

(** The pattern built from ["__"] matches every name of two characters or
    more, and the pattern built from ["%%"] matches every name. *)
Lemma like_two_underscores (name : string) :
  (2 <= String.length name)%nat -> Sql.like (Db.like_pattern "__") name = true.
Proof.
  destruct name as [|a [|b rest]]; simpl String.length; try lia. intros _.
  unfold Db.like_pattern. simpl append.
  apply like_percent_skip. rewrite !like_underscore. apply like_percent_all.
Qed.

Lemma like_two_percents (name : string) :
  Sql.like (Db.like_pattern "%%") name = true.
Proof.
  unfold Db.like_pattern. simpl append.
  do 3 apply like_percent_skip. apply like_percent_all.
Qed.

Lemma order_by_In {A : Type} (le : A -> A -> bool) (x : A) (l : list A) :
  In x (Sql.order_by le l) <-> In x l.
Proof.
  induction l as [|y l IH]; simpl; [reflexivity|].
  rewrite <- IH. generalize (Sql.order_by le l). intros s.
  induction s as [|z s IHs]; simpl; [reflexivity|].
  destruct (le y z); simpl; [reflexivity|]. rewrite IHs. tauto.
Qed.

Lemma firstn_incl {A : Type} (n : nat) (l : list A) (x : A) :
  In x (firstn n l) -> In x l.
Proof.
  revert l. induction n as [|n IH]; intros [|y l]; simpl; try tauto.
  intros [H|H]; [now left|right; now apply IH].
Qed.

Lemma search_users_rows_In (db : Database) (query current_user name : string) :
  In name (Db.search_users_rows db query current_user) ->
  Sql.like ("%" ++ query ++ "%") name = true
  /\ name <> current_user
  /\ exists row, In row (users db) /\ username row = name.
Proof.
  unfold Db.search_users_rows, Sql.limit. intros Hin.
  apply firstn_incl in Hin. apply order_by_In in Hin.
  apply in_map_iff in Hin. destruct Hin as (row & <- & Hrow).
  apply filter_In in Hrow. destruct Hrow as [Hrow Hp].
  apply andb_true_iff in Hp. destruct Hp as [Hlike Hne].
  split; [exact Hlike|]. split; [|now exists row].
  apply negb_true_iff, String.eqb_neq in Hne. exact Hne.
Qed.

(** C10: every name the search returns matches the [LIKE] pattern
    ["%" ++ query ++ "%"], in which the query's own ["_"] and ["%"] are
    wildcards: ["__"] matches any name of two or more characters and ["%%"]
    any name at all; so carol's search for ["__"] returns alice and bob,
    neither of which contains ["__"]. *)
Theorem search_query_wildcards :
  (forall db query current_user name,
      In name (Db.search_users_rows db query current_user) ->
      Sql.like ("%" ++ query ++ "%") name = true)
  /\ (forall db query current_user row,
        In row (users db) -> username row <> current_user ->
        (2 <= String.length (username row))%nat ->
        (query = "__" \/ query = "%%") ->
        (List.length (users db) <= 10)%nat ->
        In (username row) (Db.search_users_rows db query current_user))
  /\ Chat.search_users sample_env sample_db (search "__" "tok-carol")
     = ((200, SearchOk ["alice"; "bob"] "__"), sample_db)
  /\ PyStr.contains "alice" "__" = false
  /\ PyStr.contains "bob" "__" = false.
Proof.
  split; [|split; [|repeat split]].
  - intros db query current_user name Hin.
    now apply search_users_rows_In in Hin.
  - intros db query current_user row Hrow Hne Hlen Hq Hsmall.
    unfold Db.search_users_rows, Sql.limit.
    rewrite firstn_all2.
    + apply order_by_In. apply in_map. apply filter_In. split; [exact Hrow|].
      apply andb_true_iff. split.
      * destruct Hq as [-> | ->];
          [now apply like_two_underscores|apply like_two_percents].
      * apply negb_true_iff, String.eqb_neq. exact Hne.
    + rewrite (Permutation_length (order_by_perm String.leb _)).
      rewrite length_map.
      etransitivity; [apply filter_length_le|exact Hsmall].
Qed.

Lemma search_query_wildcards_witness :
  In "alice" (Db.search_users_rows sample_db "__" "carol")
  /\ Sql.like "%__%" "alice" = true.
Proof.
  destruct search_query_wildcards as (Hlike & Hin & _).
  assert (H : In "alice" (Db.search_users_rows sample_db "__" "carol")).
  { apply (Hin sample_db "__" "carol" (sample_user 1 "alice")).
    - simpl. now left.
    - discriminate.
    - simpl. lia.
    - now left.
    - simpl. lia. }
  split; [exact H|exact (Hlike sample_db "__" "carol" "alice" H)].
Defined.

(** C6 (the code departs from the claim): carol's searches for ["b_b"] and
    for ["__"] return names that contain neither, where the search by
    substring returns none; on a query without wildcards, ["LI"], the two
    agree. *)
Theorem search_underscore_query :
  Chat.search_users sample_env sample_db (search "b_b" "tok-carol")
  = ((200, SearchOk ["bob"] "b_b"), sample_db)
  /\ search_by_substring sample_db "b_b" "carol" = []
  /\ Chat.search_users sample_env sample_db (search "__" "tok-carol")
     = ((200, SearchOk ["alice"; "bob"] "__"), sample_db)
  /\ search_by_substring sample_db "__" "carol" = []
  /\ Chat.search_users sample_env sample_db (search "LI" "tok-carol")
     = ((200, SearchOk ["alice"] "LI"), sample_db)
  /\ search_by_substring sample_db "LI" "carol" = ["alice"].
Proof. repeat split; reflexivity. Qed.

(** [LIKE] folds case for ASCII letters only: the name ending in U+00E9 is
    found under ["JOS"] and not under the same name in capitals, which
    [str.lower] maps to it. *)
Lemma search_folds_ascii_only :
  lower jose_upper = jose_lower
  /\ Chat.search_users sample_env latin1_db (search "JOS" "tok-carol")
     = ((200, SearchOk [jose_lower] "JOS"), latin1_db)
  /\ Chat.search_users sample_env latin1_db (search jose_upper "tok-carol")
     = ((200, SearchOk [] jose_upper), latin1_db)
  /\ search_by_substring latin1_db jose_upper "carol" = [jose_lower].
Proof. repeat split; reflexivity. Qed.

(** ** Store failures *)

Ltac fault_cases e op :=
  let H := fresh "Hfault" in
  destruct (fault_of e op) eqn:H; try congruence; try reflexivity.

Lemma require_auth_authenticated
    (f : string -> env -> Database -> request -> response * Database)
    (e : env) (db : Database) (req : request) (name : string) :
  authenticated e db req name ->
  Auth.require_auth f e db req = f name e db req.
Proof.
  intros (token & s & Hb & Hs & <-). unfold Auth.require_auth. now rewrite Hb, Hs.
Qed.

(** C8, as stated, fails: when the query of the user search, or of the user
    listing, raises in the store, the route answers 200 with an empty list,
    where the healthy store answers the same requests with names. *)
Lemma search_failure_reported_as_success :
  fault_of (env_failing OpSearchUsers ExecuteError) OpSearchUsers = ExecuteError
  /\ Chat.search_users (env_failing OpSearchUsers ExecuteError) sample_db
       (search "al" "tok-carol")
     = ((200, SearchOk [] "al"), sample_db)
  /\ Chat.search_users sample_env sample_db (search "al" "tok-carol")
     = ((200, SearchOk ["alice"] "al"), sample_db)
  /\ fault_of (env_failing OpGetAllUsers ExecuteError) OpGetAllUsers = ExecuteError
  /\ Chat.get_users (env_failing OpGetAllUsers ExecuteError) sample_db (bearer "tok-carol")
     = ((200, UsersOk []), sample_db)
  /\ Chat.get_users sample_env sample_db (bearer "tok-carol")
     = ((200, UsersOk ["alice"; "bob"]), sample_db).
Proof. repeat split; reflexivity. Qed.

(** C8 (amended): a store failure surfaces at once, with the store unchanged:
    as 500 in registration, login, session verification, the guard, public-key
    lookup, sending, history and conversations; in logout as 401 when the
    [DELETE] raises and as 500 when the connection cannot be opened; the user
    listing and the user search answer 500 when the connection cannot be
    opened, and 200 with an empty list when their query raises. *)
Theorem store_failure_outcomes
    (gen : string -> string -> string) (chk : string -> string -> bool)
    (e : env) (db : Database) (req : request) :
  (forall data,
      json req = Some data -> passes_checks data ->
      fault_of e OpCreateUser <> Healthy ->
      Auth.register gen e db req = internal_server_error db)
  /\ (forall data raw pw,
        json req = Some data ->
        dict_get "username" data = Some raw -> dict_get "password" data = Some pw ->
        fault_of e OpGetUser <> Healthy ->
        Auth.login chk e db req = internal_server_error db)
  /\ (forall data raw pw user,
        json req = Some data ->
        dict_get "username" data = Some raw -> dict_get "password" data = Some pw ->
        Db.get_user e db (PyStr.strip raw) = Return (Some user) ->
        chk (password_hash user) pw = true ->
        fault_of e OpCreateSession <> Healthy ->
        status (Auth.login chk e db req) = 500 /\ snd (Auth.login chk e db req) = db)
  /\ (forall token,
        bearer_token req = Some token ->
        (fault_of e OpDeleteSession = ExecuteError ->
         Auth.logout e db req = ((401, ErrorBody "Invalid session"), db))
        /\ (fault_of e OpDeleteSession = ConnectError ->
            Auth.logout e db req = internal_server_error db))
  /\ (forall token,
        bearer_token req = Some token ->
        fault_of e OpGetSession <> Healthy ->
        Auth.verify_session e db req = internal_server_error db
        /\ forall f, Auth.require_auth f e db req = flask_unhandled db)
  /\ (forall name,
        authenticated e db req name ->
        (forall who, fault_of e OpGetUserPublicKey <> Healthy ->
                     Chat.get_public_key who e db req = internal_server_error db)
        /\ (forall data,
              json req = Some data ->
              missing_field ["receiver_username"; "encrypted_content"; "iv"] data = None ->
              (fault_of e OpGetUser <> Healthy ->
               Chat.send_message e db req = internal_server_error db)
              /\ (forall row,
                    Db.get_user e db (getitem "receiver_username" data) = Return (Some row) ->
                    fault_of e OpStoreMessage <> Healthy ->
                    status (Chat.send_message e db req) = 500
                    /\ snd (Chat.send_message e db req) = db))
        /\ (fault_of e OpGetMessages <> Healthy ->
            Chat.get_messages e db req = internal_server_error db)
        /\ (fault_of e OpGetConversations <> Healthy ->
            Chat.get_conversations e db req = internal_server_error db)
        /\ (fault_of e OpGetAllUsers = ConnectError ->
            Chat.get_users e db req = internal_server_error db)
        /\ (fault_of e OpGetAllUsers = ExecuteError ->
            Chat.get_users e db req = ((200, UsersOk []), db))
        /\ (forall raw,
              dict_get "q" (args req) = Some raw ->
              (2 <= String.length (PyStr.strip raw))%nat ->
              (fault_of e OpSearchUsers = ConnectError ->
               Chat.search_users e db req = internal_server_error db)
              /\ (fault_of e OpSearchUsers = ExecuteError ->
                  Chat.search_users e db req
                  = ((200, SearchOk [] (PyStr.strip raw)), db)))).
Proof.
  split; [|split; [|split; [|split; [|split]]]].
  - intros data Hj Hc Hf. rewrite (register_checked gen e db req data Hj Hc).
    unfold Db.create_user. fault_cases e OpCreateUser.
  - intros data raw pw Hj Hu Hp Hf. unfold Auth.login. rewrite Hj, Hu, Hp.
    unfold Db.get_user, Db.run_query. fault_cases e OpGetUser.
  - intros data raw pw user Hj Hu Hp Hg Hchk Hf. unfold Auth.login.
    rewrite Hj, Hu, Hp, Hg, Hchk. simpl negb. cbv iota.
    unfold Db.create_session. fault_cases e OpCreateSession; split; reflexivity.
  - intros token Hb. unfold Auth.logout, Db.delete_session. rewrite Hb.
    split; intros Hf; now rewrite Hf.
  - intros token Hb Hf. split; [|intros f];
      unfold Auth.verify_session, Auth.require_auth, Db.get_session, Db.run_query;
      rewrite Hb; fault_cases e OpGetSession.
  - intros name Hauth.
    unfold Chat.get_public_key, Chat.send_message, Chat.get_messages,
      Chat.get_conversations, Chat.get_users, Chat.search_users.
    rewrite !(fun f => require_auth_authenticated f e db req name Hauth).
    split; [|split; [|split; [|split; [|split; [|split]]]]].
    + intros who Hf. rewrite (require_auth_authenticated _ e db req name Hauth).
      unfold Chat.get_public_key_view, Db.get_user_public_key, Db.run_query.
      fault_cases e OpGetUserPublicKey.
    + intros data Hj Hm. unfold Chat.send_message_view. rewrite Hj, Hm. split.
      * intros Hf. unfold Db.get_user, Db.run_query. fault_cases e OpGetUser.
      * intros row Hg Hf. rewrite Hg. unfold Db.store_message.
        fault_cases e OpStoreMessage; split; reflexivity.
    + intros Hf. unfold Chat.get_messages_view, Db.get_messages, Db.run_query.
      fault_cases e OpGetMessages.
    + intros Hf. unfold Chat.get_conversations_view, Db.get_conversations, Db.run_query.
      fault_cases e OpGetConversations.
    + intros Hf. unfold Chat.get_users_view, Db.get_all_users, Db.try_query.
      now rewrite Hf.
    + intros Hf. unfold Chat.get_users_view, Db.get_all_users, Db.try_query.
      now rewrite Hf.
    + intros raw Hq Hlen. unfold Chat.search_users_view. rewrite Hq.
      replace (String.length (PyStr.strip raw) <? 2)%nat with false
        by (symmetry; apply Nat.ltb_ge; lia).
      unfold Db.search_users, Db.try_query. split; intros Hf; now rewrite Hf.
Qed.

Lemma store_failure_outcomes_witness :
  Chat.get_conversations (env_failing OpGetConversations ExecuteError) sample_db
    (bearer "tok-carol")
  = internal_server_error sample_db
  /\ Auth.logout (env_failing OpDeleteSession ExecuteError) sample_db (bearer "tok-carol")
     = ((401, ErrorBody "Invalid session"), sample_db)
  /\ Chat.search_users (env_failing OpSearchUsers ExecuteError) sample_db
       (search "al" "tok-carol")
     = ((200, SearchOk [] "al"), sample_db)
  /\ Chat.search_users (env_failing OpSearchUsers ConnectError) sample_db
       (search "al" "tok-carol")
     = internal_server_error sample_db.
Proof.
  split; [|split; [|split]].
  - destruct (store_failure_outcomes sample_gen sample_chk
                (env_failing OpGetConversations ExecuteError) sample_db
                (bearer "tok-carol")) as (_ & _ & _ & _ & _ & H).
    destruct (H "carol") as (_ & _ & _ & Hc & _).
    + exists "tok-carol", carol_session. repeat split.
    + apply Hc. discriminate.
  - destruct (store_failure_outcomes sample_gen sample_chk
                (env_failing OpDeleteSession ExecuteError) sample_db
                (bearer "tok-carol")) as (_ & _ & _ & H & _).
    destruct (H "tok-carol" eq_refl) as [Hx _]. apply Hx. reflexivity.
  - destruct (store_failure_outcomes sample_gen sample_chk
                (env_failing OpSearchUsers ExecuteError) sample_db
                (search "al" "tok-carol")) as (_ & _ & _ & _ & _ & H).
    destruct (H "carol") as (_ & _ & _ & _ & _ & _ & Hs).
    + exists "tok-carol", carol_session. repeat split.
    + destruct (Hs "al" eq_refl) as [_ Hx]; [simpl; lia|]. apply Hx. reflexivity.
  - destruct (store_failure_outcomes sample_gen sample_chk
                (env_failing OpSearchUsers ConnectError) sample_db
                (search "al" "tok-carol")) as (_ & _ & _ & _ & _ & H).
    destruct (H "carol") as (_ & _ & _ & _ & _ & _ & Hs).
    + exists "tok-carol", carol_session. repeat split.
    + destruct (Hs "al" eq_refl) as [Hx _]; [simpl; lia|]. apply Hx. reflexivity.
Defined.

(** ** The Bearer header *)

Lemma split_no_sep (sep : ascii) (s : string) :
  (forall c, In c (chars s) -> c <> sep) -> PyStr.split sep s = [s].
Proof.
  induction s as [|c s IH]; simpl; [reflexivity|]. intros H.
  destruct (Ascii.eqb_spec c sep) as [->|_].
  - exfalso. apply (H sep); [now left|reflexivity].
  - rewrite IH; [reflexivity|]. intros d Hd. apply H. now right.
Qed.

(** A header ["Bearer " ++ token] presents [token], provided the token holds
    no space (a URL-safe token holds none). *)
Lemma bearer_token_bearer (token : string) :
  (forall c, In c (chars token) -> c <> " "%char) ->
  bearer_token (bearer token) = Some token.
Proof.
  intros H. unfold bearer_token, bearer, PyStr.startswith. simpl.
  replace (String.prefix "" token) with true by (now destruct token).
  now rewrite (split_no_sep " " token H).
Qed.

(** ** Reachable stores *)

Lemma has_user_In (db : Database) (name : string) :
  Db.has_user db name = true <-> In name (map username (users db)).
Proof.
  unfold Db.has_user. rewrite existsb_exists, in_map_iff.
  split; intros (u & H1 & H2).
  - exists u. apply String.eqb_eq in H2. tauto.
  - exists u. split; [exact H2|]. now apply String.eqb_eq.
Qed.

Lemma has_session_In (db : Database) (token : string) :
  Db.has_session db token = true <-> In token (map session_token (sessions db)).
Proof.
  unfold Db.has_session. rewrite existsb_exists, in_map_iff.
  split; intros (u & H1 & H2).
  - exists u. apply String.eqb_eq in H2. tauto.
  - exists u. split; [exact H2|]. now apply String.eqb_eq.
Qed.

Lemma find_has_user (db : Database) (name : string) (row : user_row) :
  find (fun u => (username u =? name)%string) (users db) = Some row ->
  Db.has_user db name = true.
Proof.
  intros H. apply find_some in H. destruct H as [Hin Heq].
  unfold Db.has_user. apply existsb_exists. now exists row.
Qed.

Lemma NoDup_snoc {A : Type} (l : list A) (x : A) :
  NoDup l -> ~ In x l -> NoDup (l ++ [x]).
Proof.
  intros Hl Hx. apply NoDup_app; [exact Hl|repeat constructor; simpl; tauto|].
  intros y Hy [<-|[]]. contradiction.
Qed.

(** Deleting session rows keeps the tokens of the remaining rows distinct. *)
Lemma tokens_distinct_after_delete (keep : session_row -> bool) (rows : list session_row) :
  NoDup (map session_token rows) ->
  NoDup (map session_token (filter keep rows)).
Proof.
  induction rows as [|s rows IH]; simpl; intros Hnd; [exact Hnd|].
  apply NoDup_cons_iff in Hnd. destruct Hnd as [Hfresh Hnd].
  destruct (keep s); simpl; [|now apply IH].
  apply NoDup_cons_iff. split; [|now apply IH].
  rewrite in_map_iff. intros (s' & Htok & Hin).
  apply filter_In in Hin. destruct Hin as [Hin _].
  apply Hfresh. rewrite <- Htok. now apply in_map.
Qed.

Lemma consistent_register (gen : string -> string -> string) (e : env) (db : Database)
    (req : request) :
  consistent db -> consistent (snd (Auth.register gen e db req)).
Proof.
  intros Hc. unfold Auth.register.
  destruct (json req) as [data|]; [|exact Hc].
  destruct (missing_field _ data); [exact Hc|].
  destruct (_ || _)%bool; [exact Hc|].
  destruct (negb _); [exact Hc|].
  destruct (_ <? _)%nat; [exact Hc|].
  unfold Db.create_user.
  destruct (fault_of e OpCreateUser); try exact Hc.
  destruct (Db.has_user db _) eqn:Hfresh; [exact Hc|].
  destruct Hc as (Hu & Ht & Hs & Hm). simpl.
  assert (Hmono : forall n row, Db.has_user db n = true ->
                                existsb (fun u => (username u =? n)%string)
                                  (users db ++ [row])%list = true).
  { intros n row Hn. rewrite existsb_app. unfold Db.has_user in Hn. now rewrite Hn. }
  split; [|split; [exact Ht|split]]; simpl.
  - rewrite map_app. apply NoDup_snoc; [exact Hu|]. simpl.
    intros Hin. apply has_user_In in Hin. congruence.
  - intros s Hin. unfold Db.has_user. simpl. apply Hmono. now apply Hs.
  - intros m Hin. unfold Db.has_user. simpl.
    destruct (Hm m Hin). split; now apply Hmono.
Qed.

Lemma consistent_login (chk : string -> string -> bool) (e : env) (db : Database)
    (req : request) :
  consistent db -> consistent (snd (Auth.login chk e db req)).
Proof.
  intros Hc. unfold Auth.login.
  destruct (json req) as [data|]; [|exact Hc].
  destruct (dict_get "username" data) as [raw|]; [|exact Hc].
  destruct (dict_get "password" data) as [pw|]; [|exact Hc].
  unfold Db.get_user, Db.run_query.
  destruct (fault_of e OpGetUser); try exact Hc.
  destruct (find _ (users db)) as [user|] eqn:Hfind; [|exact Hc].
  destruct (negb _); [exact Hc|].
  unfold Db.create_session.
  destruct (fault_of e OpCreateSession); try exact Hc.
  destruct (Db.has_session db _) eqn:Hfresh; [exact Hc|].
  destruct Hc as (Hu & Ht & Hs & Hm). simpl.
  split; [exact Hu|split; [|split]]; simpl.
  - rewrite map_app. apply NoDup_snoc; [exact Ht|]. simpl.
    intros Hin. apply has_session_In in Hin. congruence.
  - intros s Hin. apply in_app_or in Hin. destruct Hin as [Hin|[<-|[]]].
    + now apply Hs.
    + simpl. now apply (find_has_user db _ user).
  - exact Hm.
Qed.

Lemma consistent_logout (e : env) (db : Database) (req : request) :
  consistent db -> consistent (snd (Auth.logout e db req)).
Proof.
  intros Hc. unfold Auth.logout.
  destruct (bearer_token req) as [token|]; [|exact Hc].
  unfold Db.delete_session.
  destruct (fault_of e OpDeleteSession); try exact Hc.
  destruct Hc as (Hu & Ht & Hs & Hm). simpl.
  split; [exact Hu|split; [|split]]; simpl.
  - now apply tokens_distinct_after_delete.
  - intros s Hin. apply filter_In in Hin. now apply Hs.
  - exact Hm.
Qed.

Lemma consistent_send (e : env) (db : Database) (req : request) :
  consistent db -> consistent (snd (Chat.send_message e db req)).
Proof.
  intros Hc. unfold Chat.send_message, Auth.require_auth.
  destruct (bearer_token req) as [token|]; [|exact Hc].
  unfold Db.get_session, Db.run_query.
  destruct (fault_of e OpGetSession); try exact Hc.
  destruct (find _ (sessions db)) as [s|] eqn:Hs; [|exact Hc].
  apply find_some in Hs. destruct Hs as [Hs _].
  unfold Chat.send_message_view.
  destruct (json req) as [data|]; [|exact Hc].
  destruct (missing_field _ data); [exact Hc|].
  unfold Db.get_user, Db.run_query.
  destruct (fault_of e OpGetUser); try exact Hc.
  destruct (find _ (users db)) as [row|] eqn:Hfind; [|exact Hc].
  unfold Db.store_message.
  destruct (fault_of e OpStoreMessage); try exact Hc.
  destruct Hc as (Hu & Ht & Hsess & Hm). simpl.
  split; [exact Hu|split; [exact Ht|split]]; simpl.
  - exact Hsess.
  - intros m Hin. apply in_app_or in Hin. destruct Hin as [Hin|[<-|[]]].
    + now apply Hm.
    + simpl. split; [now apply Hsess|now apply (find_has_user db _ row)].
Qed.

(** Every reachable store is consistent. *)
Theorem reachable_consistent (gen : string -> string -> string)
    (chk : string -> string -> bool) (db : Database) :
  reachable gen chk db -> consistent db.
Proof.
  induction 1 as [|db ep e req Hr IH].
  - unfold consistent. simpl. repeat split; try apply NoDup_nil; contradiction.
  - destruct ep; simpl.
    + now apply consistent_register.
    + now apply consistent_login.
    + now apply consistent_logout.
    + replace (snd (Auth.verify_session e db req)) with db; [exact IH|].
      unfold Auth.verify_session. destruct (bearer_token req); [|reflexivity].
      now destruct (Db.get_session e db s) as [[?|]|].
    + unfold Chat.get_users. rewrite require_auth_unchanged; [exact IH|].
      intros n. unfold Chat.get_users_view.
      now destruct (Db.get_all_users e db n).
    + unfold Chat.get_public_key. rewrite require_auth_unchanged; [exact IH|].
      intros n. unfold Chat.get_public_key_view.
      now destruct (Db.get_user_public_key e db name) as [[[|? ?]|]|].
    + now apply consistent_send.
    + unfold Chat.get_messages. rewrite require_auth_unchanged; [exact IH|].
      intros n. unfold Chat.get_messages_view.
      now destruct (Db.get_messages e db n _).
    + unfold Chat.get_conversations. rewrite require_auth_unchanged; [exact IH|].
      intros n. unfold Chat.get_conversations_view.
      now destruct (Db.get_conversations e db n).
    + unfold Chat.search_users. rewrite require_auth_unchanged; [exact IH|].
      intros n. unfold Chat.search_users_view.
      destruct (_ <? _)%nat; [reflexivity|].
      now destruct (Db.search_users e db _ n).
Qed.

Lemma reachable_consistent_witness :
  consistent (snd (Auth.register sample_gen sample_env empty_db
                     (registration "alice" "secret1" "pkA"))).
Proof.
  apply (reachable_consistent sample_gen sample_chk).
  apply (reachable_step sample_gen sample_chk empty_db PostRegister sample_env
           (registration "alice" "secret1" "pkA")).
  apply reachable_empty.
Defined.

(** ** The life of a session *)

Lemma login_200_fresh (chk : string -> string -> bool)
    (e : env) (db db' : Database) (req : request) (b : body) :
  Auth.login chk e db req = ((200, b), db') ->
  Db.has_session db (token_urlsafe e) = false.
Proof.
  unfold Auth.login, internal_server_error.
  destruct (json req) as [data|]; [|discriminate].
  destruct (dict_get "username" data) as [raw|]; [|discriminate].
  destruct (dict_get "password" data) as [pw|]; [|discriminate].
  destruct (Db.get_user e db (PyStr.strip raw)) as [[user|]|]; try discriminate.
  destruct (chk (password_hash user) pw); simpl; [|discriminate].
  unfold Db.create_session.
  destruct (fault_of e OpCreateSession); try discriminate.
  now destruct (Db.has_session db (token_urlsafe e)).
Qed.

Lemma find_snoc_fresh {A : Type} (p : A -> bool) (l : list A) (x : A) :
  (forall y, In y l -> p y = false) ->
  find p (l ++ [x]) = if p x then Some x else None.
Proof.
  induction l as [|y l IH]; simpl; intros H; [reflexivity|].
  rewrite (H y) by now left. apply IH. intros z Hz. apply H. now right.
Qed.

(** A session returned by login is accepted, under the user's name, exactly
    while the store's clock is before the time at which the row was created
    plus 24 hours plus the amount by which Python's clock was ahead of the
    store's at the login, and is rejected from that instant on: its life on
    the store's clock is 24 hours where the two clocks agree, longer on a
    host east of UTC and shorter on a host west of it. *)
Theorem login_session_lifetime (chk : string -> string -> bool)
    (e0 e : env) (db0 db : Database) (req0 : request) (b : body) :
  Auth.login chk e0 db0 req0 = ((200, b), db) ->
  fault_of e OpGetSession = Healthy ->
  (forall c, In c (chars (token_urlsafe e0)) -> c <> " "%char) ->
  exists name s,
    b = LoginOk (token_urlsafe e0) name (expires_at s)
    /\ In s (sessions db)
    /\ session_token s = token_urlsafe e0
    /\ session_username s = name
    /\ session_created_at s = CURRENT_TIMESTAMP e0
    /\ expires_at s = session_created_at s + timedelta_hours 24 + clock_offset e0
    /\ (CURRENT_TIMESTAMP e < session_created_at s + timedelta_hours 24 + clock_offset e0 ->
        forall f, Auth.require_auth f e db (bearer (token_urlsafe e0))
                  = f name e db (bearer (token_urlsafe e0)))
    /\ (session_created_at s + timedelta_hours 24 + clock_offset e0 <= CURRENT_TIMESTAMP e ->
        forall f, Auth.require_auth f e db (bearer (token_urlsafe e0))
                  = ((401, ErrorBody "Invalid or expired session"), db)).
Proof.
  intros Hlogin He Htok.
  pose proof (login_200_fresh chk e0 db0 db req0 b Hlogin) as Hfresh.
  destruct (login_200 chk e0 db0 db req0 b Hlogin) as (name & -> & Hs).
  exists name, {| session_id := seq_sessions db0 + 1; session_username := name;
                  session_token := token_urlsafe e0;
                  expires_at := datetime_now e0 + timedelta_hours 24;
                  session_created_at := CURRENT_TIMESTAMP e0 |}.
  split; [reflexivity|].
  split; [rewrite Hs; apply in_or_app; right; left; reflexivity|].
  cbn [session_token session_username session_created_at expires_at].
  do 3 (split; [reflexivity|]).
  assert (Hexp : CURRENT_TIMESTAMP e0 + timedelta_hours 24 + clock_offset e0
                 = datetime_now e0 + timedelta_hours 24)
    by (unfold clock_offset; lia).
  rewrite Hexp. split; [reflexivity|].
  assert (Hfind : forall f,
             Auth.require_auth f e db (bearer (token_urlsafe e0)) =
             if CURRENT_TIMESTAMP e <? datetime_now e0 + timedelta_hours 24
             then f name e db (bearer (token_urlsafe e0))
             else ((401, ErrorBody "Invalid or expired session"), db)).
  { intros f. unfold Auth.require_auth, Db.get_session, Db.run_query.
    rewrite (bearer_token_bearer _ Htok), He, Hs.
    rewrite find_snoc_fresh.
    - unfold Db.live_session. simpl. rewrite String.eqb_refl. simpl.
      now destruct (_ <? _).
    - intros s Hin. unfold Db.live_session.
      destruct (String.eqb_spec (session_token s) (token_urlsafe e0)) as [Heq|];
        [|reflexivity].
      exfalso. assert (Db.has_session db0 (token_urlsafe e0) = true).
      { apply has_session_In. rewrite <- Heq. now apply in_map. }
      congruence. }
  split; intros Hnow f; rewrite Hfind.
  - now replace (_ <? _) with true by (symmetry; apply Z.ltb_lt; lia).
  - now replace (_ <? _) with false by (symmetry; apply Z.ltb_ge; lia).
Qed.

Lemma login_session_lifetime_witness :
  clock_offset east_login = timedelta_hours 2
  /\ CURRENT_TIMESTAMP (east_at 26) = CURRENT_TIMESTAMP east_login + timedelta_hours 25
  /\ exists name s,
       LoginOk "tok-1" "alice" (timedelta_hours 27)
       = LoginOk (token_urlsafe east_login) name (expires_at s)
       /\ In s (sessions db_after_login_east)
       /\ session_token s = token_urlsafe east_login
       /\ session_username s = name
       /\ session_created_at s = CURRENT_TIMESTAMP east_login
       /\ expires_at s
          = session_created_at s + timedelta_hours 24 + clock_offset east_login
       /\ (CURRENT_TIMESTAMP (east_at 26)
           < session_created_at s + timedelta_hours 24 + clock_offset east_login ->
           forall f, Auth.require_auth f (east_at 26) db_after_login_east
                       (bearer (token_urlsafe east_login))
                     = f name (east_at 26) db_after_login_east
                         (bearer (token_urlsafe east_login)))
       /\ (session_created_at s + timedelta_hours 24 + clock_offset east_login
           <= CURRENT_TIMESTAMP (east_at 26) ->
           forall f, Auth.require_auth f (east_at 26) db_after_login_east
                       (bearer (token_urlsafe east_login))
                     = ((401, ErrorBody "Invalid or expired session"),
                        db_after_login_east)).
Proof.
  split; [reflexivity|]. split; [reflexivity|].
  apply (login_session_lifetime sample_chk east_login (east_at 26) sample_db
           db_after_login_east sample_login).
  - reflexivity.
  - reflexivity.
  - simpl. intros c H.
    repeat (destruct H as [<-|H]; [discriminate|]). contradiction.
Defined.

(** After a logout with a token, the guard rejects that token. *)
Theorem logout_revokes (e0 e : env) (db0 db : Database) (req0 req : request)
    (token : string) :
  bearer_token req0 = Some token ->
  Auth.logout e0 db0 req0 = ((200, LogoutOk), db) ->
  fault_of e OpGetSession = Healthy ->
  bearer_token req = Some token ->
  forall f, Auth.require_auth f e db req
            = ((401, ErrorBody "Invalid or expired session"), db).
Proof.
  intros Hb0 Hout He Hb f.
  assert (Hs : sessions db = filter (fun s => negb (session_token s =? token)%string)
                                    (sessions db0)).
  { unfold Auth.logout, Db.delete_session, internal_server_error in Hout.
    rewrite Hb0 in Hout.
    destruct (fault_of e0 OpDeleteSession); try discriminate.
    now inversion Hout. }
  unfold Auth.require_auth, Db.get_session, Db.run_query. rewrite Hb, He, Hs.
  destruct (find _ _) as [s|] eqn:Hfind; [|reflexivity].
  apply find_some in Hfind. destruct Hfind as [Hin Hlive].
  apply filter_In in Hin. destruct Hin as [_ Hne].
  unfold Db.live_session in Hlive. apply negb_true_iff in Hne.
  rewrite Hne in Hlive. discriminate Hlive.
Qed.

Lemma logout_revokes_witness :
  (forall f, Auth.require_auth f sample_env sample_db (bearer "tok-carol")
             = f "carol" sample_env sample_db (bearer "tok-carol"))
  /\ (forall f, Auth.require_auth f sample_env
                  (snd (Auth.logout sample_env sample_db (bearer "tok-carol")))
                  (bearer "tok-carol")
                = ((401, ErrorBody "Invalid or expired session"),
                   snd (Auth.logout sample_env sample_db (bearer "tok-carol")))).
Proof.
  split; [reflexivity|].
  apply (logout_revokes sample_env sample_env sample_db _ (bearer "tok-carol")
           (bearer "tok-carol") "tok-carol"); reflexivity.
Defined.

(** ** Search on queries without wildcards *)

Lemma prefix_empty (s : string) : String.prefix "" s = true.
Proof. now destruct s. Qed.



Lemma map_filter {A B : Type} (f : A -> B) (p : B -> bool) (l : list A) :
  map f (filter (fun x => p (f x)) l) = filter p (map f l).
Proof.
  induction l as [|x l IH]; simpl; [reflexivity|].
  destruct (p (f x)); simpl; now rewrite IH.
Qed.

Lemma string_leb_le (a b : string) :
  String.leb a b = true <-> a = b \/ OrderedTypeEx.String_as_OT.lt a b.
Proof.
  unfold String.leb.
  pose proof (OrderedTypeEx.String_as_OT.cmp_eq a b) as Heq.
  pose proof (OrderedTypeEx.String_as_OT.cmp_lt a b) as Hlt.
  unfold OrderedTypeEx.String_as_OT.cmp in *.
  destruct (String.compare a b); split; intros H; try reflexivity;
    try discriminate.
  - left. now apply Heq.
  - right. now apply Hlt.
  - destruct H as [H|H]; [apply Heq in H|apply Hlt in H]; discriminate.
Qed.

Lemma string_leb_trans (a b c : string) :
  String.leb a b = true -> String.leb b c = true -> String.leb a c = true.
Proof.
  rewrite !string_leb_le. intros [->|Hab] [->|Hbc]; auto.
  right. now apply OrderedTypeEx.String_as_OT.lt_trans with b.
Qed.




(** ** The end-to-end scenario *)

(** bob's history with alice is the one message alice sent, and his
    conversations are alice alone, at the time of that message. *)
Theorem end_to_end_scenario :
  Chat.get_messages (env_at 500 "") scenario_db (messages_with "alice" "tokB")
  = ((200, MessagesOk
             [{| message_id := 1; sender_username := "alice";
                 receiver_username := "bob"; encrypted_content := "ct1";
                 iv := "iv1"; encrypted_session_key := None; timestamp := 300 |}]
             1),
     scenario_db)
  /\ Chat.get_conversations (env_at 500 "") scenario_db (bearer "tokB")
     = ((200, ConversationsOk [("alice", 300)] 1), scenario_db).
Proof. split; reflexivity. Qed.

(** ** The guard on the chat endpoints *)

(** A request to a chat endpoint that presents no Bearer header, or a token
    without a live session, is answered 401 and changes nothing. *)
Theorem protected_endpoints_require_session
    (gen : string -> string -> string) (chk : string -> string -> bool)
    (ep : endpoint) (e : env) (db : Database) (req : request) :
  protected ep = true ->
  fault_of e OpGetSession = Healthy ->
  (forall token s, bearer_token req = Some token -> In s (sessions db) ->
                   session_token s = token -> expires_at s <= CURRENT_TIMESTAMP e) ->
  status (dispatch gen chk ep e db req) = 401
  /\ snd (dispatch gen chk ep e db req) = db.
Proof.
  intros Hp He Hdead.
  assert (Hguard : forall f,
             Auth.require_auth f e db req
             = ((401, ErrorBody "Missing or invalid authorization header"), db)
             \/ Auth.require_auth f e db req
                = ((401, ErrorBody "Invalid or expired session"), db)).
  { intros f. unfold Auth.require_auth.
    destruct (bearer_token req) as [token|] eqn:Hb; [|now left].
    destruct (get_session_live e db token He)
      as [(s & _ & Hin & Htok & Hlt)|[Hget _]].
    - specialize (Hdead token s eq_refl Hin Htok). lia.
    - rewrite Hget. now right. }
  destruct ep; try discriminate Hp; simpl;
    match goal with
    | |- context [?route e db req] =>
        let f := eval unfold Chat.get_users, Chat.get_public_key, Chat.send_message,
                        Chat.get_messages, Chat.get_conversations, Chat.search_users
                 in route in
        change (route e db req) with (f e db req)
    end;
    match goal with
    | |- context [Auth.require_auth ?f e db req] =>
        destruct (Hguard f) as [-> | ->]; split; reflexivity
    end.
Qed.

Lemma protected_endpoints_require_session_witness :
  status (dispatch sample_gen sample_chk GetConversations sample_env sample_db
            (bearer "tok-stale")) = 401
  /\ snd (dispatch sample_gen sample_chk GetConversations sample_env sample_db
            (bearer "tok-stale")) = sample_db.
Proof.
  apply (protected_endpoints_require_session sample_gen sample_chk GetConversations
           sample_env sample_db (bearer "tok-stale")).
  - reflexivity.
  - reflexivity.
  - intros token s Hb Hin Htok. simpl in Hin. destruct Hin as [Hs|[]].
    rewrite <- Hs in Htok. simpl in Htok. rewrite <- Htok in Hb.
    discriminate Hb.
Defined.

(** ** The user listing *)

(** The listing returns the registered names other than the caller's, all of
    them, in ascending code-point order. *)
Theorem get_all_users_lists_others (e : env) (db : Database) (current_user : string) :
  fault_of e OpGetAllUsers = Healthy ->
  exists names,
    Db.get_all_users e db current_user = Return names
    /\ Permutation names
         (filter (fun name => negb (name =? current_user)%string)
                 (map username (users db)))
    /\ (forall name, In name names <->
                     Db.has_user db name = true /\ name <> current_user)
    /\ StronglySorted (fun a b => String.leb a b = true) names.
Proof.
  intros He. unfold Db.get_all_users, Db.try_query. rewrite He.
  eexists. split; [reflexivity|].
  rewrite (map_filter username (fun name => negb (name =? current_user)%string)).
  split; [apply order_by_perm|]. split.
  - intros name. rewrite order_by_In, filter_In, has_user_In.
    rewrite negb_true_iff, String.eqb_neq. reflexivity.
  - apply order_by_sorted; [apply String.leb_total|apply string_leb_trans].
Qed.

Lemma get_all_users_lists_others_witness :
  Db.get_all_users sample_env sample_db "bob" = Return ["alice"; "carol"]
  /\ exists names,
    Db.get_all_users sample_env sample_db "bob" = Return names
    /\ Permutation names
         (filter (fun name => negb (name =? "bob")%string)
                 (map username (users sample_db)))
    /\ (forall name, In name names <->
                     Db.has_user sample_db name = true /\ name <> "bob")
    /\ StronglySorted (fun a b => String.leb a b = true) names.
Proof.
  split; [reflexivity|].
  apply (get_all_users_lists_others sample_env sample_db "bob"). reflexivity.
Defined.

(** ** What a request can change *)

(** Case analysis along a route: the store's faults and uniqueness checks
    as soon as they can be decided, then the next branch of the route. *)
Ltac route_step :=
  match goal with
  | |- context [fault_of ?e ?op] => destruct (fault_of e op) eqn:?
  | |- context [Db.has_user ?d ?n] => destruct (Db.has_user d n) eqn:?
  | |- context [Db.has_session ?d ?t] => destruct (Db.has_session d t) eqn:?
  | |- context [match ?x with _ => _ end] => destruct x eqn:?
  | |- context [if ?x then _ else _] => destruct x eqn:?
  end.

Ltac route_cases := repeat (cbn match beta zeta; route_step).

Ltac unfold_routes :=
  unfold dispatch, Chat.get_users, Chat.get_public_key, Chat.send_message,
    Chat.get_messages, Chat.get_conversations, Chat.search_users,
    Auth.require_auth, Auth.register, Auth.login, Auth.logout, Auth.verify_session,
    Chat.get_users_view, Chat.get_public_key_view, Chat.send_message_view,
    Chat.get_messages_view, Chat.get_conversations_view, Chat.search_users_view,
    Db.create_user, Db.get_user, Db.get_user_public_key, Db.store_message,
    Db.get_messages, Db.get_conversations, Db.create_session, Db.get_session,
    Db.delete_session, Db.search_users, Db.get_all_users, Db.run_query, Db.try_query,
    internal_server_error, flask_unhandled.

(** A request answered with an error status leaves the store as it was. *)
Theorem errors_change_nothing
    (gen : string -> string -> string) (chk : string -> string -> bool)
    (ep : endpoint) (e : env) (db : Database) (req : request) :
  400 <= status (dispatch gen chk ep e db req) ->
  snd (dispatch gen chk ep e db req) = db.
Proof.
  destruct ep; unfold_routes; route_cases; unfold status; simpl;
    intros H; try reflexivity; lia.
Qed.

Lemma errors_change_nothing_witness :
  status (dispatch sample_gen sample_chk PostRegister sample_env sample_db
            (registration "alice" "secret1" "pkA")) = 409
  /\ snd (dispatch sample_gen sample_chk PostRegister sample_env sample_db
            (registration "alice" "secret1" "pkA")) = sample_db.
Proof.
  split; [reflexivity|].
  apply errors_change_nothing. unfold status. simpl. lia.
Defined.

Lemma filter_all {A : Type} (l : list A) : filter (fun _ => true) l = l.
Proof. induction l as [|x l IH]; simpl; [reflexivity|now rewrite IH]. Qed.

Ltac effect_goal :=
  match goal with
  | |- _ /\ _ => split
  | |- _ <> _ -> _ => let H := fresh in intros H; try congruence
  | |- _ = _ -> _ => let H := fresh in intros H; try discriminate H
  | |- exists keep : session_row -> bool, ?l = filter keep ?l =>
      exists (fun _ => true); symmetry; apply filter_all
  | |- exists keep : session_row -> bool, filter ?f ?l = filter keep ?l =>
      exists f; reflexivity
  | |- exists added, ?l = (?l ++ added)%list /\ _ =>
      exists []; rewrite app_nil_r; repeat split; simpl; lia
  | |- exists added, (?l ++ [?x])%list = (?l ++ added)%list /\ _ =>
      exists [x]; repeat split; try (simpl; lia); congruence
  | |- _ = _ => reflexivity
  end.

(** No request deletes or alters a user row or a message row: each table
    grows by at most one row, at its end, users under [register] alone and
    messages under [send_message] alone; sessions change under [login] (one
    row more at most) and [logout] (rows removed) alone; every other endpoint
    leaves the whole store as it was. *)
Theorem endpoint_effects
    (gen : string -> string -> string) (chk : string -> string -> bool)
    (ep : endpoint) (e : env) (db : Database) (req : request) :
  (exists added, users (snd (dispatch gen chk ep e db req)) = (users db ++ added)%list
                 /\ (List.length added <= 1)%nat
                 /\ (ep <> PostRegister -> added = []))
  /\ (exists added, messages (snd (dispatch gen chk ep e db req))
                    = (messages db ++ added)%list
                    /\ (List.length added <= 1)%nat
                    /\ (ep <> PostSend -> added = []))
  /\ (ep = PostLogin ->
      exists added, sessions (snd (dispatch gen chk ep e db req))
                    = (sessions db ++ added)%list
                    /\ (List.length added <= 1)%nat)
  /\ (ep = PostLogout ->
      exists keep, sessions (snd (dispatch gen chk ep e db req))
                   = filter keep (sessions db))
  /\ (ep <> PostLogin -> ep <> PostLogout ->
      sessions (snd (dispatch gen chk ep e db req)) = sessions db)
  /\ (ep <> PostRegister -> ep <> PostLogin -> ep <> PostLogout -> ep <> PostSend ->
      snd (dispatch gen chk ep e db req) = db).
Proof.
  destruct ep; unfold_routes; route_cases; simpl; repeat effect_goal.
Qed.

(** ** Logging in *)

(** With both fields present, [login] answers an unknown username and a wrong
    password with one and the same 401, writing nothing; with the right
    password it stores one session under the stripped username, drawn token
    and login time plus 24 hours, unless the drawn token is already in use,
    which it answers 500, writing nothing. *)
Theorem login_outcomes (chk : string -> string -> bool) (e : env) (db : Database)
    (req : request) (data : dict) (raw pw : string) :
  json req = Some data ->
  dict_get "username" data = Some raw ->
  dict_get "password" data = Some pw ->
  (Db.get_user e db (PyStr.strip raw) = Return None ->
   Auth.login chk e db req = ((401, ErrorBody "Invalid username or password"), db))
  /\ (forall user,
        Db.get_user e db (PyStr.strip raw) = Return (Some user) ->
        chk (password_hash user) pw = false ->
        Auth.login chk e db req = ((401, ErrorBody "Invalid username or password"), db))
  /\ (forall user,
        Db.get_user e db (PyStr.strip raw) = Return (Some user) ->
        chk (password_hash user) pw = true ->
        fault_of e OpCreateSession = Healthy ->
        (Db.has_session db (token_urlsafe e) = true ->
         Auth.login chk e db req = ((500, ErrorBody "Failed to create session"), db))
        /\ (Db.has_session db (token_urlsafe e) = false ->
            exists db',
              Auth.login chk e db req
              = ((200, LoginOk (token_urlsafe e) (PyStr.strip raw)
                         (datetime_now e + timedelta_hours 24)), db')
              /\ sessions db'
                 = (sessions db ++
                    [{| session_id := seq_sessions db + 1;
                        session_username := PyStr.strip raw;
                        session_token := token_urlsafe e;
                        expires_at := datetime_now e + timedelta_hours 24;
                        session_created_at := CURRENT_TIMESTAMP e |}])%list
              /\ users db' = users db /\ messages db' = messages db)).
Proof.
  intros Hj Hu Hp. unfold Auth.login. rewrite Hj, Hu, Hp.
  split; [|split].
  - intros ->. reflexivity.
  - intros user -> ->. reflexivity.
  - intros user -> -> He. simpl negb. cbv iota.
    unfold Db.create_session. rewrite He. split; intros ->.
    + reflexivity.
    + eexists. split; [reflexivity|]. simpl. repeat split.
Qed.

Lemma login_outcomes_witness :
  Auth.login sample_chk sample_env sample_db (login_as "dave" "h")
  = ((401, ErrorBody "Invalid username or password"), sample_db)
  /\ Auth.login sample_chk sample_env sample_db (login_as "alice" "wrong")
     = ((401, ErrorBody "Invalid username or password"), sample_db)
  /\ status (Auth.login sample_chk sample_env sample_db (login_as " alice " "h")) = 200.
Proof.
  destruct (login_outcomes sample_chk sample_env sample_db (login_as "dave" "h")
              [("username", "dave"); ("password", "h")] "dave" "h"
              eq_refl eq_refl eq_refl) as (Hnone & _ & _).
  destruct (login_outcomes sample_chk sample_env sample_db (login_as "alice" "wrong")
              [("username", "alice"); ("password", "wrong")] "alice" "wrong"
              eq_refl eq_refl eq_refl) as (_ & Hwrong & _).
  destruct (login_outcomes sample_chk sample_env sample_db (login_as " alice " "h")
              [("username", " alice "); ("password", "h")] " alice " "h"
              eq_refl eq_refl eq_refl) as (_ & _ & Hright).
  split; [apply Hnone; reflexivity|].
  split; [apply (Hwrong (sample_user 1 "alice")); reflexivity|].
  destruct (Hright (sample_user 1 "alice") eq_refl eq_refl eq_refl) as [_ Hfresh].
  destruct (Hfresh eq_refl) as (db' & -> & _). reflexivity.
Defined.

Lemma find_snoc_found {A : Type} (p : A -> bool) (l : list A) (x : A) :
  (forall y, In y l -> p y = false) -> p x = true -> find p (l ++ [x]) = Some x.
Proof. intros Hl Hx. rewrite find_snoc_fresh by exact Hl. now rewrite Hx. Qed.

Lemma has_user_none (db : Database) (name : string) (u : user_row) :
  Db.has_user db name = false -> In u (users db) -> (username u =? name)%string = false.
Proof.
  intros Hn Hin. destruct (String.eqb_spec (username u) name) as [Heq|]; [|reflexivity].
  exfalso. assert (Db.has_user db name = true); [|congruence].
  apply has_user_In. rewrite <- Heq. now apply in_map.
Qed.

(** A registration answered 201 can be followed by a login under the same
    name, also when the login pads it with blanks: the login succeeds exactly
    when the password checks against the hash that [generate_password_hash]
    gave for the registered password, and is answered 401 otherwise. *)
Theorem register_then_login
    (gen : string -> string -> string) (chk : string -> string -> bool)
    (e1 e2 : env) (db : Database) (req1 req2 : request) (data1 data2 : dict)
    (raw pw : string) :
  json req1 = Some data1 -> passes_checks data1 ->
  Db.has_user db (username_of data1) = false ->
  fault_of e1 OpCreateUser = Healthy ->
  json req2 = Some data2 ->
  dict_get "username" data2 = Some raw -> dict_get "password" data2 = Some pw ->
  PyStr.strip raw = username_of data1 ->
  fault_of e2 OpGetUser = Healthy -> fault_of e2 OpCreateSession = Healthy ->
  Db.has_session db (token_urlsafe e2) = false ->
  exists db1,
    Auth.register gen e1 db req1 = ((201, RegisterOk (username_of data1)), db1)
    /\ (chk (gen (salt e1) (getitem "password" data1)) pw = true ->
        exists db2,
          Auth.login chk e2 db1 req2
          = ((200, LoginOk (token_urlsafe e2) (username_of data1)
                     (datetime_now e2 + timedelta_hours 24)), db2))
    /\ (chk (gen (salt e1) (getitem "password" data1)) pw = false ->
        Auth.login chk e2 db1 req2
        = ((401, ErrorBody "Invalid username or password"), db1)).
Proof.
  intros Hj1 Hc1 Hfresh He1 Hj2 Hu Hp Hname Hg Hs Htok.
  rewrite (register_checked gen e1 db req1 data1 Hj1 Hc1).
  unfold Db.create_user. rewrite He1, Hfresh.
  eexists. split; [reflexivity|].
  match goal with
  | |- context [Auth.login chk e2 ?d req2] => set (db1 := d)
  end.
  assert (Hget : Db.get_user e2 db1 (PyStr.strip raw)
                 = Return (Some {| user_id := seq_users db + 1;
                                   username := username_of data1;
                                   password_hash := gen (salt e1) (getitem "password" data1);
                                   public_key := getitem "public_key" data1;
                                   user_created_at := CURRENT_TIMESTAMP e1 |})).
  { unfold Db.get_user, Db.run_query. rewrite Hg, Hname. f_equal. subst db1. simpl.
    apply find_snoc_found.
    - intros u Hin. now apply (has_user_none db).
    - simpl. apply String.eqb_refl. }
  assert (Htok1 : Db.has_session db1 (token_urlsafe e2) = false) by exact Htok.
  unfold Auth.login. rewrite Hj2, Hu, Hp, Hget. cbn [password_hash].
  split; intros ->; simpl negb; cbv iota; [|reflexivity].
  unfold Db.create_session. rewrite Hs, Htok1, Hname. eexists. reflexivity.
Qed.

Lemma register_then_login_witness :
  exists db1,
    Auth.register sample_gen sample_env empty_db (registration "alice" "secret1" "pkA")
    = ((201, RegisterOk "alice"), db1)
    /\ (sample_chk (sample_gen "s" "secret1") "secret1" = true ->
        exists db2,
          Auth.login sample_chk (later_env 2000) db1 (login_as " alice " "secret1")
          = ((200, LoginOk "tok-2" "alice" (2000 + timedelta_hours 24)), db2))
    /\ (sample_chk (sample_gen "s" "secret1") "secret1" = false ->
        Auth.login sample_chk (later_env 2000) db1 (login_as " alice " "secret1")
        = ((401, ErrorBody "Invalid username or password"), db1)).
Proof.
  apply (register_then_login sample_gen sample_chk sample_env (later_env 2000) empty_db
           (registration "alice" "secret1" "pkA") (login_as " alice " "secret1")
           (registration_data "alice" "secret1" "pkA")
           [("username", " alice "); ("password", "secret1")] " alice " "secret1");
    try reflexivity.
  repeat split; try reflexivity; vm_compute; lia.
Defined.

(** ** Session verification and the sessions of others *)

(** [verify_session] and the guard decide alike: the one answers 200, with
    the username and an expiry later than the store's time, exactly when the
    other hands the request to the view under that username; they answer 401
    together, and 500 together. *)
Theorem verify_session_agrees_with_guard (e : env) (db : Database) (req : request) :
  (exists name expires,
      Auth.verify_session e db req = ((200, VerifyOk name expires), db)
      /\ CURRENT_TIMESTAMP e < expires
      /\ authenticated e db req name
      /\ forall f, Auth.require_auth f e db req = f name e db req)
  \/ (status (Auth.verify_session e db req) = 401
      /\ snd (Auth.verify_session e db req) = db
      /\ (forall name, ~ authenticated e db req name)
      /\ forall f, status (Auth.require_auth f e db req) = 401
                   /\ snd (Auth.require_auth f e db req) = db)
  \/ (Auth.verify_session e db req = internal_server_error db
      /\ (forall name, ~ authenticated e db req name)
      /\ forall f, Auth.require_auth f e db req = flask_unhandled db).
Proof.
  unfold Auth.verify_session, Auth.require_auth, authenticated.
  destruct (bearer_token req) as [token|] eqn:Hb.
  - destruct (Db.get_session e db token) as [[s|]|x] eqn:Hget.
    + left. exists (session_username s), (expires_at s).
      assert (Hlive : Db.live_session e token s = true).
      { unfold Db.get_session, Db.run_query in Hget.
        destruct (fault_of e OpGetSession); try discriminate.
        inversion Hget as [Hfind]. now apply find_some in Hfind. }
      apply live_session_spec in Hlive.
      repeat split; try tauto. now exists token, s.
    + right. left. repeat split.
      intros name (token' & s & Hb' & Hget' & _). congruence.
    + right. right. repeat split.
      intros name (token' & s & Hb' & Hget' & _). congruence.
  - right. left. repeat split.
    intros name (token' & s & Hb' & _). discriminate.
Qed.

Lemma find_snoc_other {A : Type} (p : A -> bool) (l : list A) (x : A) :
  p x = false -> find p (l ++ [x]) = find p l.
Proof.
  intros Hx. induction l as [|y l IH]; simpl; [now rewrite Hx|].
  now destruct (p y).
Qed.

Lemma find_filter_other {A : Type} (p keep : A -> bool) (l : list A) :
  (forall x, keep x = false -> p x = false) -> find p (filter keep l) = find p l.
Proof.
  intros H. induction l as [|y l IH]; simpl; [reflexivity|].
  destruct (keep y) eqn:Hk; simpl.
  - now destruct (p y).
  - now rewrite (H y Hk).
Qed.

Lemma endpoint_effects_sessions
    (gen : string -> string -> string) (chk : string -> string -> bool)
    (ep : endpoint) (e : env) (db : Database) (req : request) :
  sessions (snd (dispatch gen chk ep e db req)) = sessions db
  \/ (exists row, sessions (snd (dispatch gen chk ep e db req))
                  = (sessions db ++ [row])%list
                  /\ session_token row = token_urlsafe e)
  \/ (exists presented,
        bearer_token req = Some presented
        /\ sessions (snd (dispatch gen chk ep e db req))
           = filter (fun s => negb (session_token s =? presented)%string) (sessions db)).
Proof.
  destruct ep; unfold_routes; route_cases; simpl;
    first [ left; reflexivity
          | right; left; eexists; split; reflexivity
          | right; right; eexists; split; reflexivity ].
Qed.

(** A request touches no session but the one it presents or creates: for
    every other token the session lookup gives, at any later time, what it
    gave before the request. *)
Theorem other_sessions_unaffected
    (gen : string -> string -> string) (chk : string -> string -> bool)
    (ep : endpoint) (e e' : env) (db : Database) (req : request) (token : string) :
  bearer_token req <> Some token ->
  token_urlsafe e <> token ->
  Db.get_session e' (snd (dispatch gen chk ep e db req)) token
  = Db.get_session e' db token.
Proof.
  intros Hb Hd.
  destruct (endpoint_effects_sessions gen chk ep e db req)
    as [Hsame|[(row & Hadd & Hrow)|(presented & Hbearer & Hdel)]].
  - unfold Db.get_session. now rewrite Hsame.
  - unfold Db.get_session. rewrite Hadd. f_equal. apply find_snoc_other.
    unfold Db.live_session. rewrite Hrow.
    destruct (String.eqb_spec (token_urlsafe e) token); [contradiction|reflexivity].
  - unfold Db.get_session. rewrite Hdel. f_equal. apply find_filter_other.
    intros s Hs. unfold Db.live_session. apply negb_false_iff, String.eqb_eq in Hs.
    rewrite Hs.
    destruct (String.eqb_spec presented token) as [->|]; [|reflexivity].
    contradiction.
Qed.

Lemma other_sessions_unaffected_witness :
  Db.get_session (later_env 2000)
    (snd (dispatch sample_gen sample_chk PostLogin sample_env sample_db sample_login))
    "tok-carol"
  = Return (Some carol_session)
  /\ Db.get_session (later_env 2000)
       (snd (dispatch sample_gen sample_chk PostLogin sample_env sample_db sample_login))
       "tok-carol"
     = Db.get_session (later_env 2000) sample_db "tok-carol".
Proof.
  split; [reflexivity|].
  apply (other_sessions_unaffected sample_gen sample_chk PostLogin sample_env
           (later_env 2000) sample_db sample_login "tok-carol"); discriminate.
Defined.

(** ** Registered users and their public keys *)




Lemma missing_field_present (fields : list string) (data : dict) (f : string) :
  missing_field fields data = None -> In f fields ->
  exists c v, dict_get f data = Some (String c v).
Proof.
  induction fields as [|g fields IH]; simpl; [intros _ []|].
  destruct (dict_get g data) as [[|c v]|] eqn:Hg; try discriminate.
  intros Hm [<-|Hin]; [now exists c, v|now apply IH].
Qed.

Lemma register_users (gen : string -> string -> string) (e : env) (db : Database)
    (req : request) :
  users (snd (Auth.register gen e db req)) = users db
  \/ exists row, users (snd (Auth.register gen e db req)) = (users db ++ [row])%list
                 /\ well_formed_user row.
Proof.
  unfold Auth.register.
  destruct (json req) as [data|]; [|now left].
  destruct (missing_field _ data) eqn:Hm; [now left|].
  set (name := PyStr.strip (getitem "username" data)).
  destruct ((String.length name <? 3) || (50 <? String.length name))%nat eqn:Hlen;
    [now left|].
  destruct (negb _) eqn:Hal; [now left|].
  destruct (String.length (getitem "password" data) <? 6)%nat; [now left|].
  unfold Db.create_user.
  destruct (fault_of e OpCreateUser); try now left.
  destruct (Db.has_user db _); [left; reflexivity|].
  right. eexists. split; [reflexivity|].
  apply orb_false_iff in Hlen. destruct Hlen as [Hlo Hhi].
  apply Nat.ltb_ge in Hlo, Hhi. apply negb_false_iff in Hal.
  apply username_check_spec in Hal. destruct Hal as [Hall Hsome].
  destruct (missing_field_present _ data "public_key" Hm) as (c & v & Hkey);
    [simpl; tauto|].
  unfold well_formed_user. simpl. repeat split; try assumption.
  unfold getitem. rewrite Hkey. discriminate.
Qed.

Lemma other_endpoints_users
    (gen : string -> string -> string) (chk : string -> string -> bool)
    (ep : endpoint) (e : env) (db : Database) (req : request) :
  ep <> PostRegister ->
  users (snd (dispatch gen chk ep e db req)) = users db.
Proof.
  destruct ep; try congruence; intros _;
    unfold_routes; route_cases; reflexivity.
Qed.

Lemma step_users_well_formed
    (gen : string -> string -> string) (chk : string -> string -> bool)
    (ep : endpoint) (e : env) (db : Database) (req : request) :
  Forall well_formed_user (users db) ->
  Forall well_formed_user (users (snd (dispatch gen chk ep e db req))).
Proof.
  intros IH.
  destruct ep;
    try (rewrite other_endpoints_users by discriminate; exact IH).
  simpl. destruct (register_users gen e db req) as [->|(row & -> & Hrow)];
    [exact IH|].
  apply Forall_app. split; [exact IH|]. now constructor.
Qed.

Lemma reachable_users_well_formed_rows
    (gen : string -> string -> string) (chk : string -> string -> bool)
    (db : Database) :
  reachable gen chk db -> Forall well_formed_user (users db).
Proof.
  induction 1 as [|db ep e req Hr IH]; [constructor|].
  now apply step_users_well_formed.
Qed.


Lemma scenario_reachable : reachable sample_gen sample_chk scenario_db.
Proof.
  unfold scenario_db. cbv zeta.
  apply (reachable_step sample_gen sample_chk _ PostLogin).
  apply (reachable_step sample_gen sample_chk _ PostSend).
  apply (reachable_step sample_gen sample_chk _ PostLogin).
  apply (reachable_step sample_gen sample_chk _ PostRegister).
  apply (reachable_step sample_gen sample_chk _ PostRegister).
  apply reachable_empty.
Qed.


Lemma find_has_user_iff (db : Database) (name : string) :
  Db.has_user db name = true ->
  exists row, find (fun u => (username u =? name)%string) (users db) = Some row
              /\ In row (users db) /\ username row = name.
Proof.
  unfold Db.has_user. intros H.
  destruct (find _ (users db)) as [row|] eqn:Hf.
  - exists row. apply find_some in Hf. destruct Hf as [Hin Heq].
    apply String.eqb_eq in Heq. tauto.
  - apply existsb_exists in H. destruct H as (u & Hin & Hu).
    pose proof (find_none _ _ Hf u Hin) as Hno. simpl in Hno. congruence.
Qed.

(** In a reachable store, the public-key endpoint answers an authenticated
    request with the key of the named user exactly when that name is
    registered, a key that is never empty, and with 404 otherwise. *)
Theorem public_key_lookup
    (gen : string -> string -> string) (chk : string -> string -> bool)
    (e : env) (db : Database) (req : request) (name who : string) :
  reachable gen chk db ->
  authenticated e db req name ->
  fault_of e OpGetUserPublicKey = Healthy ->
  (Db.has_user db who = true ->
   exists row, In row (users db) /\ username row = who
               /\ public_key row <> EmptyString
               /\ Chat.get_public_key who e db req
                  = ((200, PublicKeyOk who (public_key row)), db))
  /\ (Db.has_user db who = false ->
      Chat.get_public_key who e db req = ((404, ErrorBody "User not found"), db)).
Proof.
  intros Hr Hauth He. unfold Chat.get_public_key.
  rewrite (require_auth_authenticated _ e db req name Hauth).
  unfold Chat.get_public_key_view, Db.get_user_public_key, Db.run_query. rewrite He.
  split; intros Hu.
  - destruct (find_has_user_iff db who Hu) as (row & -> & Hin & Hname).
    pose proof (reachable_users_well_formed_rows gen chk db Hr) as Hwf.
    rewrite Forall_forall in Hwf. destruct (Hwf row Hin) as (_ & _ & _ & Hkey).
    exists row. repeat split; try assumption. simpl.
    destruct (public_key row); [contradiction|reflexivity].
  - now rewrite (has_user_find db who Hu).
Qed.

Lemma public_key_lookup_witness :
  (Db.has_user scenario_db "alice" = true ->
   exists row, In row (users scenario_db) /\ username row = "alice"
               /\ public_key row <> EmptyString
               /\ Chat.get_public_key "alice" (env_at 500 "") scenario_db (bearer "tokB")
                  = ((200, PublicKeyOk "alice" (public_key row)), scenario_db))
  /\ (Db.has_user scenario_db "alice" = false ->
      Chat.get_public_key "alice" (env_at 500 "") scenario_db (bearer "tokB")
      = ((404, ErrorBody "User not found"), scenario_db)).
Proof.
  apply (public_key_lookup sample_gen sample_chk (env_at 500 "") scenario_db
           (bearer "tokB") "bob" "alice").
  - exact scenario_reachable.
  - eexists "tokB", _. repeat split.
  - reflexivity.
Defined.

(** ** The conversation list against the histories *)

Lemma sorted_last {A : Type} (R : A -> A -> Prop) (l : list A) (m x : A) :
  StronglySorted R (l ++ [m]) -> In x l -> R x m.
Proof.
  induction l as [|y l IH]; simpl; [intros _ []|].
  intros Hs [<-|Hin].
  - apply StronglySorted_inv in Hs. destruct Hs as [_ Hall].
    rewrite Forall_forall in Hall. apply Hall. apply in_or_app. right. now left.
  - apply StronglySorted_inv in Hs. now apply IH.
Qed.

Lemma conversations_of_rows (e : env) (db : Database) (u : string) :
  fault_of e OpGetConversations = Healthy ->
  exists convs,
    Db.get_conversations e db u = Return convs
    /\ forall c t, In (c, t) convs <->
                   In (c, t) (Db.group_by_max (Db.conversation_rows db u)).
Proof.
  intros He. unfold Db.get_conversations, Db.run_query. rewrite He.
  eexists. split; [reflexivity|]. intros c t.
  rewrite order_by_In, distinct_groups; [reflexivity|].
  apply group_by_max_summarises.
Qed.

(** A contact is listed among the conversations of [u] exactly when the
    history of [u] with that contact is not empty, and the time listed with it
    is the timestamp of the last message of that history. *)
Theorem conversations_match_history (e : env) (db : Database) (u c : string) :
  fault_of e OpGetConversations = Healthy ->
  fault_of e OpGetMessages = Healthy ->
  c <> EmptyString ->
  exists convs hist,
    Db.get_conversations e db u = Return convs
    /\ Db.get_messages e db u (Some c) = Return hist
    /\ (In c (map fst convs) <-> hist <> [])
    /\ (forall t, In (c, t) convs ->
                  exists earlier m, hist = (earlier ++ [m])%list /\ timestamp m = t).
Proof.
  intros Hc Hm Hne.
  destruct (conversations_of_rows e db u Hc) as (convs & Hconvs & Hin).
  exists convs. eexists. split; [exact Hconvs|].
  split; [now apply get_messages_with|].
  set (hist := Sql.order_by Db.by_timestamp_asc (filter (Db.between u c) (messages db))).
  destruct (group_by_max_summarises (Db.conversation_rows db u)) as (_ & Hmax & Hall).
  assert (Hhist : forall m, In m hist <->
                            In (c, timestamp m) (Db.conversation_rows db u)
                            /\ In m (messages db) /\ Db.between u c m = true).
  { intros m. unfold hist. rewrite order_by_In, filter_In, conversation_rows_In.
    rewrite between_spec. split.
    - intros [Hi Hb]. split; [|tauto]. now exists m.
    - tauto. }
  assert (Hrow : forall t, In (c, t) (Db.conversation_rows db u) ->
                           exists m, In m hist /\ timestamp m = t).
  { intros t Ht. pose proof Ht as Ht'. apply conversation_rows_In in Ht'.
    destruct Ht' as (m & Hi & Hb & <-). exists m. split; [|reflexivity].
    apply Hhist. rewrite between_spec. tauto. }
  split.
  - split.
    + intros Hk. apply in_map_iff in Hk. destruct Hk as ([c' t] & Hfst & Hk).
      simpl in Hfst. subst c'. apply Hin, Hmax in Hk. destruct Hk as [Hk _].
      destruct (Hrow t Hk) as (m & Hmh & _). intros Hnil. rewrite Hnil in Hmh.
      destruct Hmh.
    + intros Hnonempty. destruct hist as [|m rest] eqn:Hh; [contradiction|].
      assert (Hmh : In m (m :: rest)) by now left.
      apply Hhist in Hmh. destruct Hmh as (Hr & _ & _).
      apply Hall in Hr. apply in_map_iff in Hr. destruct Hr as ([c' t] & Hfst & Hr).
      simpl in Hfst. subst c'. apply in_map_iff. exists (c, t). split; [reflexivity|].
      now apply Hin.
  - intros t Ht. apply Hin, Hmax in Ht. destruct Ht as [Hr Hle].
    destruct (Hrow t Hr) as (m0 & Hm0 & Ht0).
    destruct (exists_last (l := hist)) as (earlier & m & Heq).
    { intros Hnil. rewrite Hnil in Hm0. destruct Hm0. }
    exists earlier, m. split; [exact Heq|].
    assert (Hlast : In m hist) by (rewrite Heq; apply in_or_app; right; now left).
    apply Hhist in Hlast. destruct Hlast as (Hlast & _ & _). apply Hle in Hlast.
    assert (Hs : StronglySorted (fun a b => Db.by_timestamp_asc a b = true) hist)
      by (apply order_by_sorted;
          [apply by_timestamp_asc_total|apply by_timestamp_asc_trans]).
    rewrite Heq in Hs, Hm0. apply in_app_or in Hm0. destruct Hm0 as [Hm0|[->|[]]].
    + pose proof (sorted_last _ _ _ _ Hs Hm0) as Hord. unfold Db.by_timestamp_asc in Hord.
      apply Z.leb_le in Hord. lia.
    + exact Ht0.
Qed.

Lemma conversations_match_history_witness :
  exists convs hist,
    Db.get_conversations (env_at 500 "") scenario_db "bob" = Return convs
    /\ Db.get_messages (env_at 500 "") scenario_db "bob" (Some "alice") = Return hist
    /\ (In "alice" (map fst convs) <-> hist <> [])
    /\ (forall t, In ("alice", t) convs ->
                  exists earlier m, hist = (earlier ++ [m])%list /\ timestamp m = t).
Proof.
  apply (conversations_match_history (env_at 500 "") scenario_db "bob" "alice");
    [reflexivity|reflexivity|discriminate].
Defined.

(** ** The [Authorization] header *)

Lemma prefix_app (p s : string) :
  String.prefix p s = true <-> exists r, s = (p ++ r)%string.
Proof.
  revert s. induction p as [|c p IH]; intros s.
  - rewrite prefix_empty. split; [intros _; now exists s|reflexivity].
  - destruct s as [|d s]; simpl;
      [split; [discriminate|intros [r Hr]; discriminate]|].
    destruct (ascii_dec c d) as [->|Hne].
    + rewrite IH. split; intros [r Hr]; exists r; congruence.
    + split; [discriminate|]. intros [r Hr]. congruence.
Qed.

Lemma split_word (sep : ascii) (w r : string) :
  (forall c, In c (chars w) -> c <> sep) ->
  PyStr.split sep (w ++ String sep r) = w :: PyStr.split sep r.
Proof.
  induction w as [|c w IH]; simpl; intros H.
  - now rewrite Ascii.eqb_refl.
  - destruct (Ascii.eqb_spec c sep) as [->|_].
    + exfalso. apply (H sep); [now left|reflexivity].
    + rewrite IH; [reflexivity|]. intros d Hd. apply H. now right.
Qed.

Lemma first_word (sep : ascii) (s : string) :
  exists w rest,
    s = (w ++ rest)%string
    /\ (forall c, In c (chars w) -> c <> sep)
    /\ (rest = EmptyString \/ exists r, rest = String sep r).
Proof.
  induction s as [|c s (w & rest & Hs & Hw & Hrest)].
  - exists EmptyString, EmptyString. simpl. tauto.
  - destruct (Ascii.eqb_spec c sep) as [->|Hne].
    + exists EmptyString, (String sep s). simpl. split; [reflexivity|].
      split; [tauto|]. right. now exists s.
    + exists (String c w), rest. simpl. split; [now rewrite Hs|].
      split; [|exact Hrest]. intros d [<-|Hd]; [exact Hne|now apply Hw].
Qed.

Lemma append_empty (s : string) : (s ++ "")%string = s.
Proof. induction s as [|c s IH]; simpl; [reflexivity|now rewrite IH]. Qed.

Lemma split_first_word (sep : ascii) (w rest : string) :
  (forall c, In c (chars w) -> c <> sep) ->
  rest = EmptyString \/ (exists r, rest = String sep r) ->
  nth 0 (PyStr.split sep (w ++ rest)) EmptyString = w.
Proof.
  intros Hw [->|[r ->]].
  - rewrite append_empty. now rewrite split_no_sep.
  - now rewrite split_word.
Qed.

(** The token a request presents is the second space-separated word of its
    [Authorization] header: the header is ["Bearer "], then the token, which
    holds no space, then nothing or a space and anything. A header that does
    not start with ["Bearer "] presents no token; ["Bearer "] alone, or
    followed by a second space, presents the empty token. *)
Theorem bearer_token_second_word (req : request) (token : string) :
  bearer_token req = Some token <->
  (forall c, In c (chars token) -> c <> " "%char)
  /\ exists rest,
       Authorization req = Some ("Bearer " ++ token ++ rest)%string
       /\ (rest = EmptyString \/ exists r, rest = String " " r).
Proof.
  assert (Hword : forall c, In c (chars "Bearer") -> c <> " "%char).
  { simpl. intros c H. repeat (destruct H as [<-|H]; [discriminate|]). destruct H. }
  unfold bearer_token, PyStr.startswith. split.
  - destruct (Authorization req) as [[|a h]|]; try discriminate.
    destruct (String.prefix "Bearer " (String a h)) eqn:Hp; [|discriminate].
    apply prefix_app in Hp. destruct Hp as [s Hs]. rewrite Hs.
    change ("Bearer " ++ s)%string with ("Bearer" ++ String " " s)%string.
    rewrite (split_word " " "Bearer" s Hword).
    destruct (first_word " " s) as (w & rest & -> & Hw & Hrest).
    change (nth 1 ("Bearer" :: PyStr.split " " (w ++ rest)) "")
      with (nth 0 (PyStr.split " " (w ++ rest)) "").
    rewrite (split_first_word " " w rest Hw Hrest).
    intros Heq. injection Heq as <-. split; [exact Hw|]. now exists rest.
  - intros (Hw & rest & -> & Hrest). simpl String.prefix.
    rewrite prefix_empty.
    change ("Bearer " ++ token ++ rest)%string
      with ("Bearer" ++ String " " (token ++ rest))%string.
    rewrite (split_word " " "Bearer" _ Hword).
    change (nth 1 ("Bearer" :: PyStr.split " " (token ++ rest)) "")
      with (nth 0 (PyStr.split " " (token ++ rest)) "").
    now rewrite (split_first_word " " token rest Hw Hrest).
Qed.

(** ** Case of the search query *)

Lemma tolower_idempotent (c : ascii) : Sql.tolower (Sql.tolower c) = Sql.tolower c.
Proof. destruct c as [[] [] [] [] [] [] [] []]; reflexivity. Qed.

Lemma tolower_wildcard (c : ascii) :
  Ascii.eqb (Sql.tolower c) "%" = Ascii.eqb c "%"
  /\ Ascii.eqb (Sql.tolower c) "_" = Ascii.eqb c "_".
Proof. destruct c as [[] [] [] [] [] [] [] []]; split; reflexivity. Qed.

Lemma like_percent_unfold (p s : string) :
  Sql.like (String "%" p) s
  = Sql.like p s
    || match s with
       | EmptyString => false
       | String _ t => Sql.like (String "%" p) t
       end.
Proof. destruct s; reflexivity. Qed.

Lemma like_fold_pattern (p s : string) :
  Sql.like (fold_case p) s = Sql.like p s.
Proof.
  revert s. induction p as [|c p IH]; intros s; [reflexivity|].
  destruct (tolower_wildcard c) as [Hp Hu].
  cbn [fold_case].
  destruct (Ascii.eqb_spec c "%") as [->|Hnp].
  - change (Sql.tolower "%") with "%"%char.
    induction s as [|d s IHs].
    + rewrite !like_percent_unfold. now rewrite IH.
    + rewrite (like_percent_unfold (fold_case p)), (like_percent_unfold p).
      now rewrite IH, IHs.
  - destruct (Ascii.eqb_spec c "_") as [->|Hnu].
    + change (Sql.tolower "_") with "_"%char.
      destruct s as [|d s]; [reflexivity|]. rewrite !like_underscore. apply IH.
    + cbn [Sql.like]. rewrite Hp, Hu.
      destruct (Ascii.eqb_spec c "%") as [|_]; [contradiction|].
      destruct (Ascii.eqb_spec c "_") as [|_]; [contradiction|].
      destruct s as [|d s]; [reflexivity|].
      unfold Sql.like_char_eq. now rewrite tolower_idempotent, IH.
Qed.

Lemma fold_case_app (a b : string) :
  fold_case (a ++ b) = (fold_case a ++ fold_case b)%string.
Proof. induction a as [|c a IH]; simpl; [reflexivity|now rewrite IH]. Qed.

(** Two queries that differ only in the case of ASCII letters get the same
    search result, wildcards included. *)
Theorem search_ignores_query_case (db : Database) (q1 q2 current_user : string) :
  fold_case q1 = fold_case q2 ->
  Db.search_users_rows db q1 current_user = Db.search_users_rows db q2 current_user.
Proof.
  intros Hq. unfold Db.search_users_rows. do 3 f_equal.
  apply filter_ext. intros u. f_equal.
  rewrite <- (like_fold_pattern (Db.like_pattern q1)),
          <- (like_fold_pattern (Db.like_pattern q2)).
  unfold Db.like_pattern. now rewrite !fold_case_app, Hq.
Qed.

Lemma search_ignores_query_case_witness :
  Db.search_users_rows sample_db "B_B" "carol" = Db.search_users_rows sample_db "b_b" "carol"
  /\ Db.search_users_rows sample_db "b_b" "carol" = ["bob"].
Proof.
  split; [|reflexivity].
  apply (search_ignores_query_case sample_db "B_B" "b_b" "carol"). reflexivity.
Defined.

(** ** The search endpoint *)

Lemma firstn_firstn_same {A : Type} (n : nat) (l : list A) :
  firstn n (firstn n l) = firstn n l.
Proof. rewrite firstn_firstn. now rewrite Nat.min_id. Qed.

(** For an authenticated request the search endpoint strips the query and
    answers 400 when fewer than two characters are left, whatever the store
    holds; otherwise, with a working store, it answers 200 with the stripped
    query and the store's result for it under the caller's name, unchanged by
    the route's own cut to ten: at most ten names, all registered, none the
    caller's. *)
Theorem search_endpoint (e : env) (db : Database) (req : request) (name : string) :
  authenticated e db req name ->
  (dict_get "q" (args req) = None ->
   Chat.search_users e db req
   = ((400, ErrorBody "Search query must be at least 2 characters"), db))
  /\ (forall raw, dict_get "q" (args req) = Some raw ->
        ((String.length (PyStr.strip raw) < 2)%nat ->
         Chat.search_users e db req
         = ((400, ErrorBody "Search query must be at least 2 characters"), db))
        /\ ((2 <= String.length (PyStr.strip raw))%nat ->
            fault_of e OpSearchUsers = Healthy ->
            let names := Db.search_users_rows db (PyStr.strip raw) name in
            Chat.search_users e db req = ((200, SearchOk names (PyStr.strip raw)), db)
            /\ (List.length names <= 10)%nat
            /\ forall n, In n names -> Db.has_user db n = true /\ n <> name)).
Proof.
  intros Hauth. unfold Chat.search_users.
  rewrite (require_auth_authenticated _ e db req name Hauth).
  unfold Chat.search_users_view. split.
  - intros ->. reflexivity.
  - intros raw ->. split.
    + intros Hlt. apply Nat.ltb_lt in Hlt. now rewrite Hlt.
    + intros Hge He. apply Nat.ltb_ge in Hge. rewrite Hge.
      unfold Db.search_users, Db.try_query. rewrite He. cbv zeta. split.
      * unfold Db.search_users_rows, Sql.limit. now rewrite firstn_firstn_same.
      * split.
        -- unfold Db.search_users_rows, Sql.limit. apply firstn_le_length.
        -- intros n Hn. apply search_users_rows_In in Hn.
           destruct Hn as (_ & Hne & row & Hrow & Hname). split; [|exact Hne].
           apply has_user_In. rewrite <- Hname. now apply in_map.
Qed.

Lemma search_endpoint_witness :
  Chat.search_users sample_env sample_db (search " a " "tok-carol")
  = ((400, ErrorBody "Search query must be at least 2 characters"), sample_db)
  /\ Chat.search_users sample_env sample_db (search " al " "tok-carol")
     = ((200, SearchOk ["alice"] "al"), sample_db).
Proof.
  assert (Hauth : authenticated sample_env sample_db (search " a " "tok-carol") "carol")
    by (eexists "tok-carol", _; repeat split).
  assert (Hauth' : authenticated sample_env sample_db (search " al " "tok-carol") "carol")
    by (eexists "tok-carol", _; repeat split).
  split.
  - apply (proj2 (search_endpoint sample_env sample_db _ "carol" Hauth) " a ");
      [reflexivity|vm_compute; lia].
  - apply (proj2 (search_endpoint sample_env sample_db _ "carol" Hauth') " al ");
      [reflexivity|vm_compute; lia|reflexivity].
Defined.

(** ** Reading messages *)

(** An authenticated request reads only messages of its own user: every
    message the history endpoint returns is a stored message sent or received
    by the session's user, whatever the [with] parameter names, and every
    conversation listed comes from a stored message between that user and the
    contact. *)
Theorem reads_only_own_messages (e : env) (db : Database) (req : request)
    (name : string) :
  authenticated e db req name ->
  (fault_of e OpGetMessages = Healthy ->
   exists rows,
     Chat.get_messages e db req = ((200, MessagesOk rows (List.length rows)), db)
     /\ forall m, In m rows ->
                  In m (messages db)
                  /\ (sender_username m = name \/ receiver_username m = name))
  /\ (fault_of e OpGetConversations = Healthy ->
      exists convs,
        Chat.get_conversations e db req
        = ((200, ConversationsOk convs (List.length convs)), db)
        /\ forall c t, In (c, t) convs ->
                       exists m, In m (messages db) /\ timestamp m = t
                                 /\ ((sender_username m = name /\ receiver_username m = c)
                                     \/ (sender_username m = c /\ receiver_username m = name))).
Proof.
  intros Hauth. split; intros He.
  - unfold Chat.get_messages.
    rewrite (require_auth_authenticated _ e db req name Hauth).
    unfold Chat.get_messages_view, Db.get_messages, Db.run_query. rewrite He.
    eexists. split; [reflexivity|]. intros m Hm.
    destruct (dict_get "with" (args req)) as [[|c v]|];
      apply order_by_In, filter_In in Hm; destruct Hm as [Hin Hp];
      (split; [exact Hin|]).
    + now apply involves_spec.
    + apply between_spec in Hp. tauto.
    + now apply involves_spec.
  - unfold Chat.get_conversations.
    rewrite (require_auth_authenticated _ e db req name Hauth).
    unfold Chat.get_conversations_view.
    destruct (conversations_of_rows e db name He) as (convs & -> & Hin).
    exists convs. split; [reflexivity|]. intros c t Hct.
    apply Hin in Hct.
    destruct (group_by_max_summarises (Db.conversation_rows db name)) as (_ & Hmax & _).
    apply Hmax in Hct. destruct Hct as [Hrow _].
    apply conversation_rows_In in Hrow. destruct Hrow as (m & Hm & Hb & Ht).
    exists m. tauto.
Qed.

Lemma reads_only_own_messages_witness :
  exists rows,
    Chat.get_messages sample_env sample_db (messages_with "alice" "tok-carol")
    = ((200, MessagesOk rows (List.length rows)), sample_db)
    /\ forall m, In m rows ->
                 In m (messages sample_db)
                 /\ (sender_username m = "carol" \/ receiver_username m = "carol").
Proof.
  apply (reads_only_own_messages sample_env sample_db
           (messages_with "alice" "tok-carol") "carol").
  - eexists "tok-carol", _. repeat split.
  - reflexivity.
Defined.

(** ** Sending a message *)

(** An authenticated request with the three required fields, to a registered
    receiver, on a working store: the answer is 201 and the store gains one
    message row, last in the table, whose sender is the session's user
    (nothing in the body can name another sender), whose receiver, content,
    iv and optional session key are the body's, and whose timestamp is the
    store's clock; users and sessions are as before. From then on both
    parties find the row in their history with each other, and each lists the
    other among the conversations with a time not before it. *)
Theorem send_then_read (e e' : env) (db : Database) (req : request)
    (name : string) (data : dict) :
  authenticated e db req name ->
  json req = Some data ->
  missing_field ["receiver_username"; "encrypted_content"; "iv"] data = None ->
  Db.has_user db (getitem "receiver_username" data) = true ->
  fault_of e OpGetUser = Healthy ->
  fault_of e OpStoreMessage = Healthy ->
  fault_of e' OpGetMessages = Healthy ->
  fault_of e' OpGetConversations = Healthy ->
  let receiver := getitem "receiver_username" data in
  exists m db',
    Chat.send_message e db req = ((201, SendOk name receiver), db')
    /\ messages db' = (messages db ++ [m])%list
    /\ users db' = users db /\ sessions db' = sessions db
    /\ sender_username m = name /\ receiver_username m = receiver
    /\ encrypted_content m = getitem "encrypted_content" data
    /\ iv m = getitem "iv" data
    /\ encrypted_session_key m = dict_get "encrypted_session_key" data
    /\ timestamp m = CURRENT_TIMESTAMP e
    /\ (exists hist, Db.get_messages e' db' name (Some receiver) = Return hist
                     /\ In m hist)
    /\ (exists hist, Db.get_messages e' db' receiver (Some name) = Return hist
                     /\ In m hist)
    /\ (exists convs t, Db.get_conversations e' db' name = Return convs
                        /\ In (receiver, t) convs /\ CURRENT_TIMESTAMP e <= t)
    /\ (exists convs t, Db.get_conversations e' db' receiver = Return convs
                        /\ In (name, t) convs /\ CURRENT_TIMESTAMP e <= t).
Proof.
  intros Hauth Hjson Hmiss Huser Hget Hstore Hmsgs Hconvs receiver.
  unfold Chat.send_message.
  rewrite (require_auth_authenticated _ e db req name Hauth).
  unfold Chat.send_message_view. rewrite Hjson, Hmiss. cbv zeta.
  unfold Db.get_user, Db.run_query. rewrite Hget.
  destruct (find_has_user_iff db _ Huser) as (row & -> & _ & _).
  unfold Db.store_message. rewrite Hstore. cbv zeta.
  eexists. eexists. split; [reflexivity|]. cbn [messages users sessions].
  split; [reflexivity|]. do 8 (split; [reflexivity|]).
  set (m := {| message_id := seq_messages db + 1; sender_username := name;
               receiver_username := getitem "receiver_username" data;
               encrypted_content := getitem "encrypted_content" data;
               iv := getitem "iv" data;
               encrypted_session_key := dict_get "encrypted_session_key" data;
               timestamp := CURRENT_TIMESTAMP e |}).
  set (db' := {| users := users db; messages := (messages db ++ [m])%list;
                 sessions := sessions db; seq_users := seq_users db;
                 seq_messages := seq_messages db + 1;
                 seq_sessions := seq_sessions db |}).
  assert (Hm : In m (messages db')) by (apply in_or_app; right; now left).
  assert (Hhist : forall u v,
             (sender_username m = u /\ receiver_username m = v)
             \/ (sender_username m = v /\ receiver_username m = u) ->
             exists hist, Db.get_messages e' db' u (Some v) = Return hist /\ In m hist).
  { intros u v Huv. unfold Db.get_messages, Db.run_query. rewrite Hmsgs.
    eexists. split; [reflexivity|].
    destruct v; apply order_by_In, filter_In; (split; [exact Hm|]).
    - apply involves_spec. tauto.
    - now apply between_spec. }
  assert (Hlist : forall u c,
             (sender_username m = u /\ receiver_username m = c)
             \/ (sender_username m = c /\ receiver_username m = u) ->
             exists convs t, Db.get_conversations e' db' u = Return convs
                             /\ In (c, t) convs /\ CURRENT_TIMESTAMP e <= t).
  { intros u c Huc.
    destruct (conversations_of_rows e' db' u Hconvs) as (convs & Heq & Hin).
    destruct (group_by_max_summarises (Db.conversation_rows db' u))
      as (_ & Hmax & Hall).
    assert (Hrow : In (c, CURRENT_TIMESTAMP e) (Db.conversation_rows db' u))
      by (apply conversation_rows_In; now exists m).
    pose proof (Hall _ _ Hrow) as Hkey. apply in_map_iff in Hkey.
    destruct Hkey as ([c' t] & Hfst & Hg). simpl in Hfst. subst c'.
    exists convs, t. split; [exact Heq|]. split; [now apply Hin|].
    destruct (Hmax _ _ Hg) as [_ Hle]. now apply Hle. }
  split; [apply Hhist; now left|]. split; [apply Hhist; now right|].
  split; [apply Hlist; now left|apply Hlist; now right].
Qed.

Lemma send_then_read_witness :
  exists m db',
    Chat.send_message sample_env sample_db (send_to "bob" "tok-carol")
    = ((201, SendOk "carol" "bob"), db')
    /\ messages db' = (messages sample_db ++ [m])%list
    /\ users db' = users sample_db /\ sessions db' = sessions sample_db
    /\ sender_username m = "carol" /\ receiver_username m = "bob"
    /\ encrypted_content m = "ct1"
    /\ iv m = "iv1"
    /\ encrypted_session_key m = None
    /\ timestamp m = CURRENT_TIMESTAMP sample_env
    /\ (exists hist, Db.get_messages (later_env 2000) db' "carol" (Some "bob") = Return hist
                     /\ In m hist)
    /\ (exists hist, Db.get_messages (later_env 2000) db' "bob" (Some "carol") = Return hist
                     /\ In m hist)
    /\ (exists convs t, Db.get_conversations (later_env 2000) db' "carol" = Return convs
                        /\ In ("bob", t) convs /\ CURRENT_TIMESTAMP sample_env <= t)
    /\ (exists convs t, Db.get_conversations (later_env 2000) db' "bob" = Return convs
                        /\ In ("carol", t) convs /\ CURRENT_TIMESTAMP sample_env <= t).
Proof.
  apply (send_then_read sample_env (later_env 2000) sample_db (send_to "bob" "tok-carol")
           "carol" [("receiver_username", "bob"); ("encrypted_content", "ct1");
                    ("iv", "iv1")]);
    try reflexivity.
  eexists "tok-carol", _. repeat split.
Defined.

(** ** Row ids *)

Lemma dispatch_store
    (gen : string -> string -> string) (chk : string -> string -> bool)
    (ep : endpoint) (e : env) (db : Database) (req : request) :
  snd (dispatch gen chk ep e db req) = db
  \/ (exists row,
        snd (dispatch gen chk ep e db req)
        = {| users := users db ++ [row]; messages := messages db;
             sessions := sessions db; seq_users := seq_users db + 1;
             seq_messages := seq_messages db; seq_sessions := seq_sessions db |}
        /\ user_id row = seq_users db + 1)
  \/ (exists row,
        snd (dispatch gen chk ep e db req)
        = {| users := users db; messages := messages db ++ [row];
             sessions := sessions db; seq_users := seq_users db;
             seq_messages := seq_messages db + 1; seq_sessions := seq_sessions db |}
        /\ message_id row = seq_messages db + 1)
  \/ (exists row,
        snd (dispatch gen chk ep e db req)
        = {| users := users db; messages := messages db;
             sessions := sessions db ++ [row]; seq_users := seq_users db;
             seq_messages := seq_messages db; seq_sessions := seq_sessions db + 1 |}
        /\ session_id row = seq_sessions db + 1)
  \/ (exists keep,
        snd (dispatch gen chk ep e db req)
        = {| users := users db; messages := messages db;
             sessions := filter keep (sessions db); seq_users := seq_users db;
             seq_messages := seq_messages db; seq_sessions := seq_sessions db |}).
Proof.
  destruct ep; unfold_routes; route_cases; simpl;
    first [ left; reflexivity
          | right; left; eexists; split; reflexivity
          | right; right; left; eexists; split; reflexivity
          | right; right; right; left; eexists; split; reflexivity
          | right; right; right; right; eexists; reflexivity ].
Qed.

Lemma increasing_snoc (l : list Z) (x : Z) :
  StronglySorted Z.lt l -> Forall (fun y => y < x) l -> StronglySorted Z.lt (l ++ [x]).
Proof.
  induction 1 as [|y l Hs IH Hy]; simpl; intros Hx.
  - repeat constructor.
  - inversion Hx; subst. constructor; [now apply IH|].
    apply Forall_app. split; [exact Hy|]. now repeat constructor.
Qed.

Lemma increasing_filter {A : Type} (id : A -> Z) (keep : A -> bool) (l : list A) :
  StronglySorted Z.lt (map id l) -> StronglySorted Z.lt (map id (filter keep l)).
Proof.
  induction l as [|x l IH]; simpl; [constructor|]. intros Hs.
  apply StronglySorted_inv in Hs. destruct Hs as [Hs Hx].
  destruct (keep x); simpl; [|now apply IH].
  constructor; [now apply IH|].
  rewrite Forall_forall in *. intros y Hy. apply Hx.
  apply in_map_iff in Hy. destruct Hy as (z & <- & Hz).
  apply filter_In in Hz. apply in_map. tauto.
Qed.

Lemma increasing_ids_snoc {A : Type} (id : A -> Z) (rows : list A) (last : Z) (row : A) :
  increasing_ids id rows last -> id row = last + 1 ->
  increasing_ids id (rows ++ [row]) (last + 1).
Proof.
  intros (Hs & Hb & Hn) Hid. repeat split; try lia.
  - rewrite map_app. simpl. apply increasing_snoc; [exact Hs|].
    rewrite Forall_forall in *. intros y Hy.
    apply in_map_iff in Hy. destruct Hy as (s & <- & Hin).
    specialize (Hb s Hin). lia.
  - apply Forall_app. split.
    + rewrite Forall_forall in *. intros s Hin. specialize (Hb s Hin). lia.
    + repeat constructor; lia.
Qed.

Lemma increasing_ids_filter {A : Type} (id : A -> Z) (keep : A -> bool)
    (rows : list A) (last : Z) :
  increasing_ids id rows last -> increasing_ids id (filter keep rows) last.
Proof.
  intros (Hs & Hb & Hn). repeat split; try assumption.
  - now apply increasing_filter.
  - rewrite Forall_forall in *. intros s Hin. apply filter_In in Hin.
    apply Hb. tauto.
Qed.

Lemma increasing_ids_NoDup {A : Type} (id : A -> Z) (rows : list A) (last : Z) :
  increasing_ids id rows last -> NoDup (map id rows).
Proof.
  intros (Hs & _). induction Hs as [|x l Hs IH Hx]; constructor; [|exact IH].
  intros Hin. rewrite Forall_forall in Hx. specialize (Hx x Hin). lia.
Qed.

Lemma ids_in_order_step
    (gen : string -> string -> string) (chk : string -> string -> bool)
    (ep : endpoint) (e : env) (db : Database) (req : request) :
  ids_in_order db -> ids_in_order (snd (dispatch gen chk ep e db req)).
Proof.
  intros (Hu & Hm & Hs).
  destruct (dispatch_store gen chk ep e db req)
    as [->|[(row & -> & Hid)|[(row & -> & Hid)|[(row & -> & Hid)|(keep & ->)]]]];
    unfold ids_in_order; cbn [users messages sessions seq_users seq_messages seq_sessions];
    (split; [|split]);
    first [assumption | now apply increasing_ids_snoc | now apply increasing_ids_filter].
Qed.

Lemma reachable_ids (gen : string -> string -> string)
    (chk : string -> string -> bool) (db : Database) :
  reachable gen chk db -> ids_in_order db.
Proof.
  induction 1 as [|db ep e req Hr IH].
  - unfold ids_in_order, increasing_ids. simpl. repeat split; try constructor; lia.
  - now apply ids_in_order_step.
Qed.

Lemma reaches_reachable (gen : string -> string -> string)
    (chk : string -> string -> bool) (db db' : Database) :
  reachable gen chk db -> reaches gen chk db db' -> reachable gen chk db'.
Proof.
  intros Hr. induction 1 as [|db' ep e req Hs IH]; [exact Hr|].
  now apply reachable_step.
Qed.

Lemma grows_refl {A : Type} (id : A -> Z) (rows : list A) (last : Z) :
  grows id rows last rows last.
Proof. split; [lia|]. intros r Hr. now left. Qed.

Lemma grows_trans {A : Type} (id : A -> Z) (r1 r2 r3 : list A) (l1 l2 l3 : Z) :
  grows id r1 l1 r2 l2 -> grows id r2 l2 r3 l3 -> grows id r1 l1 r3 l3.
Proof.
  intros [H12 Hr12] [H23 Hr23]. split; [lia|]. intros r Hr.
  destruct (Hr23 r Hr) as [Hin|Hnew]; [|right; lia].
  exact (Hr12 r Hin).
Qed.

Lemma grows_snoc {A : Type} (id : A -> Z) (rows : list A) (last : Z) (row : A) :
  id row = last + 1 -> grows id rows last (rows ++ [row]) (last + 1).
Proof.
  intros Hid. split; [lia|]. intros r Hr. apply in_app_or in Hr.
  destruct Hr as [Hr|[<-|[]]]; [now left|right; lia].
Qed.

Lemma grows_filter {A : Type} (id : A -> Z) (keep : A -> bool) (rows : list A)
    (last : Z) :
  grows id rows last (filter keep rows) last.
Proof. split; [lia|]. intros r Hr. apply filter_In in Hr. tauto. Qed.

Lemma step_grows
    (gen : string -> string -> string) (chk : string -> string -> bool)
    (ep : endpoint) (e : env) (db : Database) (req : request) :
  grows user_id (users db) (seq_users db)
    (users (snd (dispatch gen chk ep e db req)))
    (seq_users (snd (dispatch gen chk ep e db req)))
  /\ grows message_id (messages db) (seq_messages db)
       (messages (snd (dispatch gen chk ep e db req)))
       (seq_messages (snd (dispatch gen chk ep e db req)))
  /\ grows session_id (sessions db) (seq_sessions db)
       (sessions (snd (dispatch gen chk ep e db req)))
       (seq_sessions (snd (dispatch gen chk ep e db req))).
Proof.
  destruct (dispatch_store gen chk ep e db req)
    as [->|[(row & -> & Hid)|[(row & -> & Hid)|[(row & -> & Hid)|(keep & ->)]]]];
    cbn [users messages sessions seq_users seq_messages seq_sessions];
    (split; [|split]);
    first [apply grows_refl | now apply grows_snoc | apply grows_filter].
Qed.

Lemma reaches_grows
    (gen : string -> string -> string) (chk : string -> string -> bool)
    (db db' : Database) :
  reaches gen chk db db' ->
  grows user_id (users db) (seq_users db) (users db') (seq_users db')
  /\ grows message_id (messages db) (seq_messages db) (messages db') (seq_messages db')
  /\ grows session_id (sessions db) (seq_sessions db) (sessions db') (seq_sessions db').
Proof.
  induction 1 as [|db' ep e req Hs (IHu & IHm & IHs)].
  - repeat split; try lia; intros r Hr; now left.
  - destruct (step_grows gen chk ep e db' req) as (Hu & Hm & Hse).
    split; [|split]; eapply grows_trans; eassumption.
Qed.

Lemma increasing_ids_same_row {A : Type} (id : A -> Z) (rows : list A) (last : Z)
    (a b : A) :
  increasing_ids id rows last -> In a rows -> In b rows -> id a = id b -> a = b.
Proof.
  intros (Hs & _). induction rows as [|x rows IH]; simpl; [intros []|].
  simpl in Hs. apply StronglySorted_inv in Hs. destruct Hs as [Hs Hx].
  rewrite Forall_forall in Hx.
  intros [<-|Ha] [<-|Hb] Hid; try reflexivity.
  - specialize (Hx (id b) (in_map id _ _ Hb)). lia.
  - specialize (Hx (id a) (in_map id _ _ Ha)). lia.
  - now apply IH.
Qed.

Lemma grows_ids_kept {A : Type} (id : A -> Z) (rows rows' : list A) (last last' : Z) :
  increasing_ids id rows last -> grows id rows last rows' last' ->
  ids_kept id rows rows'.
Proof.
  intros Hinc [_ Hnew] r r' Hr Hr' Hid.
  destruct (Hnew r' Hr') as [Hold|Hbeyond].
  - now apply (increasing_ids_same_row id rows last).
  - destruct Hinc as (_ & Hb & _). rewrite Forall_forall in Hb.
    specialize (Hb r Hr). lia.
Qed.

(** Row ids are never reused. In every store reached from a reachable store
    by further requests, the ids of each table increase in table order; no
    table's sequence has gone back, also when sessions were deleted in
    between; a row that carries the id of a row of the earlier store is that
    row; every session row is one the earlier store held or has an id beyond
    the earlier sequence; so the id of a session deleted in between is held
    by no row. *)
Theorem row_ids_never_reused
    (gen : string -> string -> string) (chk : string -> string -> bool)
    (db db' : Database) :
  reachable gen chk db -> reaches gen chk db db' ->
  ids_in_order db'
  /\ seq_users db <= seq_users db'
  /\ seq_messages db <= seq_messages db'
  /\ seq_sessions db <= seq_sessions db'
  /\ ids_kept user_id (users db) (users db')
  /\ ids_kept message_id (messages db) (messages db')
  /\ ids_kept session_id (sessions db) (sessions db')
  /\ (forall s', In s' (sessions db') ->
                 In s' (sessions db) \/ seq_sessions db < session_id s')
  /\ (forall s, In s (sessions db) -> ~ In s (sessions db') ->
                ~ In (session_id s) (map session_id (sessions db'))).
Proof.
  intros Hr Hs.
  pose proof (reachable_ids gen chk db Hr) as (Hu & Hm & Hse).
  destruct (reaches_grows gen chk db db' Hs) as (Gu & Gm & Gs).
  split; [apply (reachable_ids gen chk); now apply (reaches_reachable gen chk db)|].
  split; [apply Gu|]. split; [apply Gm|]. split; [apply Gs|].
  assert (Hkept : ids_kept session_id (sessions db) (sessions db'))
    by (eapply grows_ids_kept; eassumption).
  split; [eapply grows_ids_kept; eassumption|].
  split; [eapply grows_ids_kept; eassumption|].
  split; [exact Hkept|]. split; [apply Gs|].
  intros s Hin Hgone Hid. apply in_map_iff in Hid.
  destruct Hid as (s' & Hid & Hin'). apply Hgone.
  now rewrite <- (Hkept s s' Hin Hin' Hid).
Qed.

Lemma row_ids_never_reused_witness :
  map session_id (sessions scenario_db) = [1; 2]
  /\ map session_id (sessions relogin_db) = [1; 3]
  /\ ids_in_order relogin_db
  /\ seq_users scenario_db <= seq_users relogin_db
  /\ seq_messages scenario_db <= seq_messages relogin_db
  /\ seq_sessions scenario_db <= seq_sessions relogin_db
  /\ ids_kept user_id (users scenario_db) (users relogin_db)
  /\ ids_kept message_id (messages scenario_db) (messages relogin_db)
  /\ ids_kept session_id (sessions scenario_db) (sessions relogin_db)
  /\ (forall s', In s' (sessions relogin_db) ->
                 In s' (sessions scenario_db) \/ seq_sessions scenario_db < session_id s')
  /\ (forall s, In s (sessions scenario_db) -> ~ In s (sessions relogin_db) ->
                ~ In (session_id s) (map session_id (sessions relogin_db))).
Proof.
  split; [reflexivity|]. split; [reflexivity|].
  apply (row_ids_never_reused sample_gen sample_chk scenario_db relogin_db).
  - exact scenario_reachable.
  - unfold relogin_db. cbv zeta.
    apply (reaches_step sample_gen sample_chk _ _ PostLogin).
    apply (reaches_step sample_gen sample_chk _ _ PostLogout).
    apply reaches_refl.
Defined.
